(** * dn3: training wrapper, transforms and Keras layers

    A shallow embedding of
      - [src/layers.py]                  (module [Layers]),
      - [src/dn3/transforms/basic.py]    (module [Transforms]),
      - [src/dn3/trainable/trainable.py] (module [Trainable]),
    together with the dataset wrapper exercised by
    [src/tests/testTransforms.py] (module [Dataset]), whose code is not
    among the sources and is modelled from the specification.

    Each Python class is a module of its own, named after it, with its
    methods under their own names.  Objects are records or attribute maps;
    methods that touch [self] or call into the framework are written in a
    small state-and-exception monad, a method reached through [self] being a
    parameter of the code that calls it.  Python [int]s are [Z]; Python
    [float]s and tensor elements are IEEE-754 binary floating-point numbers
    ([spec_float]; binary64 for a [float]).

    The definitions come first; the properties, grouped by source file,
    follow them. *)

From Stdlib Require Import ZArith QArith String List Lia SpecFloat.
From stdpp Require Import gmap strings list.

Open Scope Z_scope.

(* ===================================================================== *)
(** * Python exceptions and the state-and-exception monad                *)
(* ===================================================================== *)

Inductive exn : Type :=
| AssertionError
| NotImplementedError
| TypeError (msg : string)
| KeyError (key : string)
| IndexError
| RuntimeError (msg : string)
| AttributeError (name : string)
| InvalidArgumentError
| ValueError (msg : string)
| ZeroDivisionError
| OverflowError.

(** A computation over a mutable store [St]: it returns a value or raises,
    and in both cases hands back the store as the statements executed so far
    left it (a raised exception does not roll anything back). *)
Definition M (St A : Type) : Type := St -> (exn + A) * St.

Definition ret {St A} (a : A) : M St A := fun s => (inr a, s).

Definition bind {St A B} (c : M St A) (k : A -> M St B) : M St B :=
  fun s => match c s with
           | (inr a, s') => k a s'
           | (inl e, s') => (inl e, s')
           end.

Definition raise {St A} (e : exn) : M St A := fun s => (inl e, s).

Definition get {St} : M St St := fun s => (inr s, s).

Definition modify {St} (f : St -> St) : M St unit := fun s => (inr tt, f s).

Definition lift {St A} (r : exn + A) : M St A := fun s => (r, s).

(** [assert cond] *)
Definition assert {St} (cond : bool) : M St unit :=
  if cond then ret tt else raise AssertionError.

Notation "'let*' x ':=' c 'in' k" := (bind c (fun x => k))
  (at level 10, x name, c at level 100, k at level 200).
Notation "c ';;' k" := (bind c (fun _ => k))
  (at level 100, k at level 200, right associativity).

(** A computation that only reads the store. *)
Definition read_only {St A} (c : M St A) : Prop :=
  forall s, snd (c s) = s.

(** [for x in xs: body x] *)
Fixpoint for_each {St A} (xs : list A) (body : A -> M St unit) : M St unit :=
  match xs with
  | [] => ret tt
  | x :: xs' => body x ;; for_each xs' body
  end.

(** [range(lo, hi)] *)
Definition py_range (lo hi : Z) : list Z :=
  map (fun k => lo + Z.of_nat k) (seq 0 (Z.to_nat (hi - lo))).

(** [l.insert(i, x)]: a negative index counts from the end, and an index
    beyond either end is clamped to it. *)
Definition py_insert {A} (l : list A) (i : Z) (x : A) : list A :=
  let n := Z.of_nat (length l) in
  let j := if i <? 0 then Z.max 0 (i + n) else Z.min i n in
  take (Z.to_nat j) l ++ x :: drop (Z.to_nat j) l.

(** The position a Python list index denotes: a negative index counts from
    the end; outside [-len, len) there is none ([IndexError]). *)
Definition py_position (len : nat) (i : Z) : option nat :=
  let n := Z.of_nat len in
  if (- n <=? i) && (i <? n)
  then Some (Z.to_nat (if i <? 0 then i + n else i))
  else None.

(** [l[i]] *)
Definition py_getitem {A} (l : list A) (i : Z) : option A :=
  match py_position (length l) i with
  | Some k => l !! k
  | None => None
  end.

(** The list [l.pop(i)] leaves behind. *)
Definition py_pop {A} (l : list A) (i : Z) : option (list A) :=
  match py_position (length l) i with
  | Some k => Some (take k l ++ drop (S k) l)
  | None => None
  end.

(* ===================================================================== *)
(** * src/layers.py                                                      *)
(* ===================================================================== *)

Module Layers.

(** Shape of [tf.expand_dims(inputs, axis)] as TensorFlow specifies it: for
    an input of rank [d] the axis must lie in [-(d+1), d]; the new dimension
    of size 1 is placed at index [axis] of the result, a negative [axis]
    being counted from the end of the result ([-1] appends). *)
Definition expand_dims_shape (shape : list Z) (ax : Z) : exn + list Z :=
  let d := Z.of_nat (length shape) in
  if (- (d + 1) <=? ax) && (ax <=? d) then
    let pos := if ax <? 0 then ax + d + 1 else ax in
    inr (take (Z.to_nat pos) shape ++ 1 :: drop (Z.to_nat pos) shape)
  else inl InvalidArgumentError.

(** ** class ExpandLayer *)
Module ExpandLayer.

Record t : Type := { axis : Z }.

(** Lines 8-10; [axis] defaults to -1. *)
Definition __init__ (axis0 : Z) : t := {| axis := axis0 |}.

(** Lines 12-18. *)
Definition compute_output_signature (self : t) (input_signature : list Z)
    : list Z :=
  let ax := axis self in
  let ax := if ax <? 0 then Z.of_nat (length input_signature) + ax else ax in
  py_insert input_signature (ax + 1) 1.

(** Lines 20-21: the shape of the tensor [call] returns. *)
Definition call (self : t) (input_shape : list Z) : exn + list Z :=
  expand_dims_shape input_shape (axis self).

End ExpandLayer.

(** Shape of [tf.squeeze(inputs, axis)] as TensorFlow specifies it: for an
    input of rank [d] the axis must lie in [-d, d), a negative one being
    counted from the end, and the dimension it names must be 1; that
    dimension is removed. *)
Definition squeeze_shape (shape : list Z) (ax : Z) : exn + list Z :=
  let d := Z.of_nat (length shape) in
  if (- d <=? ax) && (ax <? d) then
    let pos := Z.to_nat (if ax <? 0 then ax + d else ax) in
    match shape !! pos with
    | Some 1 => inr (take pos shape ++ drop (S pos) shape)
    | _ => inl InvalidArgumentError
    end
  else inl InvalidArgumentError.

(** ** class SqueezeLayer(ExpandLayer) *)
Module SqueezeLayer.

(** How [compute_output_signature] ends: with the new signature, with the
    [IndexError] of an index out of range, or with the [ValueError] of line
    37, which carries the axis. *)
Inductive outcome : Type :=
| Returns (signature : list Z)
| RaisesIndexError
| RaisesValueError (ax : Z).

(** Lines 29-38; the constructor is [ExpandLayer]'s. *)
Definition compute_output_signature (self : ExpandLayer.t)
    (input_signature : list Z) : outcome :=
  let ax := ExpandLayer.axis self in
  let ax := if ax <? 0 then Z.of_nat (length input_signature) + ax else ax in
  match py_getitem input_signature ax with
  | None => RaisesIndexError
  | Some dim =>
      if dim =? 1 then
        match py_pop input_signature ax with
        | Some rest => Returns rest
        | None => RaisesIndexError
        end
      else RaisesValueError ax
  end.

(** Lines 40-41: the shape of the tensor [call] returns. *)
Definition call (self : ExpandLayer.t) (input_shape : list Z) : exn + list Z :=
  squeeze_shape input_shape (ExpandLayer.axis self).

End SqueezeLayer.

(** A Python [str] object: its characters, and whether it is the interned
    object CPython keeps for them.  A string literal that reads as a name is
    interned (['local'], wherever it is written, is one and the same
    object); a string built at run time is an object of its own, identical
    to no literal whatever its characters. *)
Record pystr : Type := { chars : string; interned : bool }.

(** The object a literal denotes. *)
Definition literal (s : string) : pystr := {| chars := s; interned := true |}.

(** [x is lit] for a literal [lit]: identity, not equality. *)
Definition is_literal (x : pystr) (lit : string) : bool :=
  interned x && bool_decide (chars x = lit).

(** ** class AttentionLSTMIn *)
Module AttentionLSTMIn.

Definition ATT_STYLES : list string := ["local"; "global"]%string.

(** The values the [alignment_units] argument takes: [None], an [int], or a
    list/tuple of ints. *)
Inductive alignment_units_arg : Type :=
| AU_None
| AU_Int (n : Z)
| AU_Seq (l : list Z).

(** Python truthiness of such a value when it is not a sequence. *)
Definition truthy (a : alignment_units_arg) : option Z :=
  match a with
  | AU_Int n => if n =? 0 then None else Some n
  | _ => None
  end.

Record t : Type := {
  units : Z;
  implementation : Z;
  alignment_units : list Z;
  alignment_depth : Z;
  style : pystr
}.

Section Construction.

(** The keyword arguments the constructor passes on ([**kwargs]), and the
    base-class constructor
    [keras.layers.LSTM.__init__(units, implementation=..., **kwargs)] of line
    76, which belongs to the framework: what it raises, if anything (Keras
    raises [ValueError] for [units] that are not positive and rejects a
    keyword it does not know).  When it returns it has recorded [units] and
    [implementation]. *)
Variable kwargs : Type.
Variable LSTM__init__ : Z -> Z -> kwargs -> option exn.

(** Lines 62-76. *)
Definition __init__ (units0 : Z) (alignment_depth0 : Z) (style0 : pystr)
    (alignment_units0 : alignment_units_arg) (implementation0 : Z)
    (kw : kwargs) : exn + t :=
  let implementation1 := if implementation0 >? 0 then implementation0 else 2 in
  let alignment_depth1 := Z.max 0 alignment_depth0 in
  let '(self_units, self_depth) :=
    match alignment_units0 with
    | AU_Seq l => (l, Z.of_nat (length l))
    | other =>
        (map (fun _ => match truthy other with Some n => n | None => units0 end)
             (py_range 0 alignment_depth1),
         alignment_depth1)
    end in
  if bool_decide (chars style0 ∈ ATT_STYLES) then
    match LSTM__init__ units0 implementation1 kw with
    | Some e => inl e
    | None =>
        inr {| units := units0; implementation := implementation1;
               alignment_units := self_units; alignment_depth := self_depth;
               style := style0 |}
    end
  else inl (TypeError ("Could not understand style: " ++ chars style0)).

End Construction.

Arguments __init__ {kwargs} LSTM__init__ units0 alignment_depth0 style0
  alignment_units0 implementation0 kw.

(** [self.style is self.ATT_STYLES[0]] (lines 83 and 116): the test is by
    identity, and [ATT_STYLES[0]] is the literal ['local']. *)
Definition style_is_first (self : t) : bool :=
  is_literal (style self) (default ""%string (head ATT_STYLES)).

(** What [build] adds to the layer: the two sizes it reads off the input
    shape, and the shapes of the attention weights it creates. *)
Record built : Type := {
  samples : Z;
  channels : Z;
  attention_kernels : list (Z * Z);
  attention_bias : option (list Z)
}.

(** The list [units] of [build] (lines 83-88). *)
Definition build_units (self : t) (input_shape : list Z) : list Z :=
  let dim := fun i => default 0 (py_getitem input_shape i) in
  if style_is_first self then
    [units self + dim (-1)] ++ alignment_units self ++ [dim 2]
  else
    [units self + dim 1] ++ alignment_units self ++ [dim 1].

(** Lines 78-107.  [add_weight] is the framework's: a weight is known here
    by the shape it is asked for.  [use_bias] is the attribute the base
    class keeps, and the base-class [build] is taken to return. *)
Definition build (self : t) (use_bias : bool) (input_shape : list Z)
    : exn + built :=
  if (length input_shape <=? 2)%nat then inl AssertionError
  else
    let dim := fun i => default 0 (py_getitem input_shape i) in
    let units_list := build_units self input_shape in
    let at_ := fun i => default 0 (py_getitem units_list i) in
    inr {| samples := dim 1;
           channels := dim 2;
           attention_kernels :=
             map (fun i => (at_ (i - 1), at_ i))
                 (py_range 1 (Z.of_nat (length units_list)));
           attention_bias :=
             if use_bias then Some (drop 1 units_list) else None |}.

End AttentionLSTMIn.

(** ** The dense and transition blocks *)

(** The two values of [data_format] Keras accepts. *)
Inductive data_format : Type := channels_first | channels_last.

(** The shape of a symbolic tensor fed to the blocks, batch dimension left
    out: (channels, length) when channels come first, (length, channels)
    when they come last. *)
Definition kshape : Type := (Z * Z)%type.

(** Shapes out of the Keras layers the blocks are made of, [None] where the
    layer refuses its arguments.  [BatchNormalization], the activation layer
    and [SpatialDropout1D] return a tensor of the shape they are given. *)
Definition BatchNormalization (ax : Z) (x : kshape) : option kshape := Some x.

Definition activation (x : kshape) : option kshape := Some x.

Definition SpatialDropout1D (x : kshape) : option kshape := Some x.

(** [Conv1D(filters, kernel_size=1, strides=1, padding='same',
    data_format=fmt)]: the channel dimension becomes [filters], the length
    stays. *)
Definition Conv1D (filters : Z) (fmt : data_format) (x : kshape)
    : option kshape :=
  if filters <=? 0 then None
  else match fmt with
       | channels_first => Some (filters, snd x)
       | channels_last => Some (fst x, filters)
       end.

(** [Concatenate(axis=ax)([x, y])] for [ax] 1 or -1: the sizes along that
    axis add up, the other sizes must agree. *)
Definition Concatenate (ax : Z) (x y : kshape) : option kshape :=
  if ax =? 1 then
    if snd x =? snd y then Some (fst x + fst y, snd x) else None
  else
    if fst x =? fst y then Some (fst x, snd x + snd y) else None.

(** [AveragePooling1D(pool, strides=pool)]: [padding] is 'valid' and
    [data_format] is 'channels_last' by default, so the windows run along
    the first dimension after the batch, whatever it holds. *)
Definition AveragePooling1D (pool : Z) (x : kshape) : option kshape :=
  if (pool <=? 0) || (fst x <? pool) then None
  else Some ((fst x - pool) / pool + 1, snd x).

(** [axis=1 if data_format == 'channels_first' else -1] *)
Definition channel_axis (fmt : data_format) : Z :=
  match fmt with channels_first => 1 | channels_last => -1 end.

(** [dense_layer_1d] (lines 144-156). *)
Definition dense_layer_1d (in_tensor : kshape) (growth_rate bn_size : Z)
    (fmt : data_format) : option kshape :=
  in_tensor ← BatchNormalization (channel_axis fmt) in_tensor;
  in_tensor ← activation in_tensor;
  in_tensor ← Conv1D (bn_size * growth_rate) fmt in_tensor;
  in_tensor ← BatchNormalization (channel_axis fmt) in_tensor;
  in_tensor ← activation in_tensor;
  in_tensor ← Conv1D growth_rate fmt in_tensor;
  in_tensor ← SpatialDropout1D in_tensor;
  Some in_tensor.

(** [dense_block_1d] (lines 159-164): the loop, run [layers] times. *)
Fixpoint dense_block_loop (layers : nat) (in_tensor : kshape)
    (bn_size growth_rate : Z) (fmt : data_format) : option kshape :=
  match layers with
  | O => Some in_tensor
  | S layers' =>
      out ← dense_layer_1d in_tensor growth_rate bn_size fmt;
      in_tensor ← Concatenate (channel_axis fmt) in_tensor out;
      dense_block_loop layers' in_tensor bn_size growth_rate fmt
  end.

Definition dense_block_1d (in_tensor : kshape) (num_layers bn_size growth_rate : Z)
    (fmt : data_format) : option kshape :=
  dense_block_loop (Z.to_nat num_layers) in_tensor bn_size growth_rate fmt.

(** [transition] (lines 167-173). *)
Definition transition (in_tensor : kshape) (num_output_features pool : Z)
    (fmt : data_format) : option kshape :=
  in_tensor ← BatchNormalization (channel_axis fmt) in_tensor;
  in_tensor ← activation in_tensor;
  in_tensor ← Conv1D num_output_features fmt in_tensor;
  in_tensor ← AveragePooling1D pool in_tensor;
  Some in_tensor.

(** The channels and the length of a shape in a given format. *)
Definition channels_of (fmt : data_format) (x : kshape) : Z :=
  match fmt with channels_first => fst x | channels_last => snd x end.

Definition length_of (fmt : data_format) (x : kshape) : Z :=
  match fmt with channels_first => snd x | channels_last => fst x end.

End Layers.

(* ===================================================================== *)
(** * src/dn3/transforms/basic.py                                        *)
(* ===================================================================== *)

Module Transforms.

(** A tensor: its shape and its elements in row-major order. *)
Record tensor : Type := { shape : list Z; data : list spec_float }.

(** What a transform returns: a tensor, or a tuple of two. *)
Inductive value : Type :=
| VTensor (x : tensor)
| VTuple (x y : tensor).

(** The part of torch the transforms rely on.  Element-wise arithmetic is
    IEEE-754 arithmetic in the format [(t_prec, t_emax)] of the tensor's
    dtype (24, 128 for float32; 53, 1024 for float64).  The reductions and the
    linear algebra are torch's own routines and are kept abstract. *)
Class Torch : Type := {
  t_prec : Z;
  t_emax : Z;
  t_mean : tensor -> spec_float;                  (* x.mean() *)
  t_std : tensor -> spec_float;                   (* x.std() *)
  t_transpose : Z -> Z -> tensor -> exn + tensor; (* x.transpose(a, b) *)
  t_matmul : tensor -> tensor -> exn + tensor;    (* x @ y *)
  t_sum : Z -> tensor -> exn + tensor;            (* x.sum(dim=d) *)
  t_pad_mode : string -> tensor -> list Z -> exn + tensor
                                     (* F.pad with a mode other than 'constant' *)
}.

Section WithTorch.
Context {T : Torch}.

(** [x - m] and [x / s] for a zero-dimensional [m], [s]: broadcast over every
    element of [x]. *)
Definition sub_scalar (x : tensor) (m : spec_float) : tensor :=
  {| shape := shape x; data := map (fun v => SFsub t_prec t_emax v m) (data x) |}.

Definition div_scalar (x : tensor) (s : spec_float) : tensor :=
  {| shape := shape x; data := map (fun v => SFdiv t_prec t_emax v s) (data x) |}.

(** *** torch.nn.functional.pad, mode 'constant' *)

Definition numel (sh : list Z) : Z := fold_right Z.mul 1 sh.

(** The padding list holds one (before, after) pair per dimension, the last
    dimension first. *)
Fixpoint pairs (pad : list Z) : list (Z * Z) :=
  match pad with
  | lo :: hi :: rest => (lo, hi) :: pairs rest
  | _ => []
  end.

(** Pairs aligned with the dimensions of a rank-[rank] input, outermost
    first; dimensions the list does not reach are left as they are. *)
Definition aligned_pairs (rank : nat) (pad : list Z) : list (Z * Z) :=
  repeat (0, 0) (rank - length (pairs pad)) ++ rev (pairs pad).

Definition padded_shape (sh : list Z) (ps : list (Z * Z)) : list Z :=
  zip_with (fun n p => n + fst p + snd p) sh ps.

(** A negative amount crops instead of padding. *)
Definition crop {A} (lo hi : Z) (blocks : list A) : list A :=
  let front := Z.to_nat (- lo) in
  let back := Z.to_nat (- hi) in
  take (length blocks - front - back) (drop front blocks).

Fixpoint pad_data (sh : list Z) (ps : list (Z * Z)) (c : spec_float)
    (d : list spec_float) : list spec_float :=
  match sh, ps with
  | n :: sh', (lo, hi) :: ps' =>
      let b := Z.to_nat (numel sh') in
      let b' := Z.to_nat (numel (padded_shape sh' ps')) in
      let blocks :=
        map (fun i => pad_data sh' ps' c (take b (drop (i * b) d)))
            (seq 0 (Z.to_nat n)) in
      repeat c (Z.to_nat lo * b') ++ concat (crop lo hi blocks)
        ++ repeat c (Z.to_nat hi * b')
  | _, _ => d
  end.

(** [constant_pad_nd]: the list must have even length and reach no further
    than the input has dimensions, and no resulting size may be negative.
    (Older releases of torch make the first two checks with [assert] in
    [F.pad] itself and so raise [AssertionError] where later ones raise
    [RuntimeError]; which of the two is immaterial below.) *)
Definition constant_pad_nd (x : tensor) (pad : list Z) (c : spec_float)
    : exn + tensor :=
  if negb (Z.even (Z.of_nat (length pad))) then
    inl (RuntimeError "Padding length must be divisible by 2")
  else if (length (shape x) <? length (pairs pad))%nat then
    inl (RuntimeError "Padding length too large")
  else
    let ps := aligned_pairs (length (shape x)) pad in
    let sh' := padded_shape (shape x) ps in
    if forallb (Z.leb 0) sh' then
      inr {| shape := sh'; data := pad_data (shape x) ps c (data x) |}
    else inl (RuntimeError "negative output size").

Definition F_pad (x : tensor) (pad : list Z) (mode : string) (c : spec_float)
    : exn + tensor :=
  if bool_decide (mode = "constant"%string) then constant_pad_nd x pad c
  else t_pad_mode mode x pad.

(** [x.shape[-1]] *)
Definition shape_last (x : tensor) : exn + Z :=
  match last (shape x) with
  | Some n => inr n
  | None => inl IndexError
  end.

End WithTorch.

(** ** BaseTransform *)
Module BaseTransform.

Record t : Type := { only_trial_data : bool }.

Definition __init__ (only_trial_data0 : bool) : t :=
  {| only_trial_data := only_trial_data0 |}.

(** Line 29. *)
Definition __call__ (x : tensor) : M t value := raise NotImplementedError.

(** Lines 47, 62 and 77. *)
Definition new_channels {A : Type} (old_channels : A) : M t A :=
  ret old_channels.

Definition new_sfreq {A : Type} (old_sfreq : A) : M t A := ret old_sfreq.

Definition new_sequence_length (old_sequence_length : Z) : M t Z :=
  ret old_sequence_length.

End BaseTransform.

(** ** ZScore *)
Module ZScore.

Record t : Type := { only_trial_data : bool }.

Definition __init__ : t := {| only_trial_data := true |}.

Section Methods.
Context {T : Torch}.

(** Line 85: [return (x - x.mean()) / x.std()]. *)
Definition __call__ (x : tensor) : M t value :=
  ret (VTensor (div_scalar (sub_scalar x (t_mean x)) (t_std x))).

End Methods.

End ZScore.

(** ** TemporalPadding *)
Module TemporalPadding.

Record t : Type := {
  only_trial_data : bool;
  start_padding : Z;
  end_padding : Z;
  mode : string;
  constant_value : spec_float
}.

Definition __init__ (start_padding0 end_padding0 : Z) (mode0 : string)
    (constant_value0 : spec_float) : t :=
  {| only_trial_data := true; start_padding := start_padding0;
     end_padding := end_padding0; mode := mode0;
     constant_value := constant_value0 |}.

Section Methods.
Context {T : Torch}.

(** Lines 111-113. *)
Definition __call__ (x : tensor) : M t value :=
  let* self := get in
  let* n := lift (shape_last x) in
  let pad := [start_padding self; end_padding self]
               ++ map (fun _ => 0) (py_range 2 n) in
  let* y := lift (F_pad x pad (mode self) (constant_value self)) in
  ret (VTensor y).

(** Lines 115-116. *)
Definition new_sequence_length (old_sequence_length : Z) : M t Z :=
  let* self := get in
  ret (old_sequence_length + start_padding self + end_padding self).

End Methods.

End TemporalPadding.

(** ** MappingDeep1010 *)
Module MappingDeep1010.

(** [mapping] is the matrix [map_channels_deep_1010] builds in [__init__];
    that function and the channel listing belong to [dn3.transforms.channels],
    which is not among the sources, so of this class [__call__] and
    [new_channels] are embedded and the matrix is taken as given. *)
Record t : Type := {
  only_trial_data : bool;
  mapping : tensor;
  add_scale_ind : bool;
  return_mask : bool
}.

(** How [new_channels] ends: with the list of names, with the [IndexError]
    of an index out of range, or with the [ValueError] of [i.item()] on an
    index that is not a single number. *)
Inductive outcome : Type :=
| Channels (names : list (option string))
| RaisesIndexError
| RaisesValueError.

(** [v != 0], the test behind [nonzero()]: only the two zeros fail it. *)
Definition nonzero (v : spec_float) : bool :=
  match v with S754_zero _ => false | _ => true end.

(** The entry of [mapping] in row [i] and column [j], at offset [k] of what
    lies below the first two dimensions ([cols] columns, [inner] elements
    below each). *)
Definition entry (self : t) (cols inner i j k : nat) : spec_float :=
  nth ((i * cols + j) * inner + k) (data (mapping self)) (S754_zero false).

(** The rows that [self.mapping[:, row].nonzero()] reports for a matrix. *)
Definition active_rows (self : t) (rows cols j : nat) : list nat :=
  List.filter (fun i => nonzero (entry self cols 1 i j 0)) (seq 0 rows).

(** ["-".join([old_channels[i] for i in active])], when every index is in
    range. *)
Definition joined (old_channels : list string) (active : list nat)
    : option string :=
  names ← mapM (fun i => old_channels !! i) active;
  Some (String.concat "-" names).

(** The body of the loop of [new_channels] (lines 145-149) for column [j]:
    the entry it appends, or how it fails. *)
Definition new_channel (self : t) (old_channels : list string)
    (rows cols inner j : nat) (matrix : bool) : outcome + option string :=
  if matrix then
    match active_rows self rows cols j with
    | [] => inr None
    | active =>
        match joined old_channels active with
        | Some name => inr (Some name)
        | None => inl RaisesIndexError
        end
    end
  else
    if existsb (fun i => existsb (fun k => nonzero (entry self cols inner i j k))
                                 (seq 0 inner))
               (seq 0 rows)
    then inl RaisesValueError
    else inr None.

Fixpoint new_channels_loop (self : t) (old_channels : list string)
    (rows cols inner : nat) (matrix : bool) (columns : list nat)
    (channels : list (option string)) : outcome :=
  match columns with
  | [] => Channels channels
  | j :: columns' =>
      match new_channel self old_channels rows cols inner j matrix with
      | inl failure => failure
      | inr name =>
          new_channels_loop self old_channels rows cols inner matrix columns'
            (channels ++ [name])
      end
  end.

(** [new_channels] (lines 142-150). *)
Definition new_channels (self : t) (old_channels : list string) : outcome :=
  match shape (mapping self) with
  | rows :: cols :: below =>
      new_channels_loop self old_channels (Z.to_nat rows) (Z.to_nat cols)
        (Z.to_nat (fold_right Z.mul 1 below))
        (match below with [] => true | _ => false end)
        (seq 0 (Z.to_nat cols)) []
  | _ => RaisesIndexError
  end.

Section Methods.
Context {T : Torch}.

(** Lines 135-140. *)
Definition __call__ (x : tensor) : M t value :=
  let* self := get in
  let* xt := lift (t_transpose 1 0 x) in
  let* prod := lift (t_matmul xt (mapping self)) in
  let* x' := lift (t_transpose 1 0 prod) in
  if return_mask self then
    let* mask := lift (t_sum 0 (mapping self)) in
    ret (VTuple x' mask)
  else ret (VTensor x').

End Methods.

End MappingDeep1010.

(** ** Any transform of the library, and the call dispatched on its class *)
Inductive transform : Type :=
| IsBaseTransform (o : BaseTransform.t)
| IsZScore (o : ZScore.t)
| IsTemporalPadding (o : TemporalPadding.t)
| IsMappingDeep1010 (o : MappingDeep1010.t).

Section Dispatch.
Context {T : Torch}.

Definition on {St A} (inj : St -> transform) (c : M St A) (o : St)
    : (exn + A) * transform :=
  let (r, o') := c o in (r, inj o').

Definition call (tr : transform) (x : tensor) : (exn + value) * transform :=
  match tr with
  | IsBaseTransform o => on IsBaseTransform (BaseTransform.__call__ x) o
  | IsZScore o => on IsZScore (ZScore.__call__ x) o
  | IsTemporalPadding o => on IsTemporalPadding (TemporalPadding.__call__ x) o
  | IsMappingDeep1010 o => on IsMappingDeep1010 (MappingDeep1010.__call__ x) o
  end.

(** [simple_zscoring] of src/tests/testTransforms.py, lines 10-11. *)
Definition simple_zscoring (data0 : tensor) : tensor :=
  div_scalar (sub_scalar data0 (t_mean data0)) (t_std data0).

End Dispatch.

(** *** A reference instance: sequential, two-pass reductions

    [mean] is the sum divided by the count and [std] the square root of the
    sum of squared deviations over [count - 1] (Bessel's correction, torch's
    default), every step rounded in the dtype's format. *)
Section Reference.
Variables prec emax : Z.

Definition of_Z (n : Z) : spec_float := binary_normalize prec emax n 0 false.

Definition fsum (l : list spec_float) : spec_float :=
  fold_left (SFadd prec emax) l (S754_zero false).

Definition mean_ref (x : tensor) : spec_float :=
  SFdiv prec emax (fsum (data x)) (of_Z (Z.of_nat (length (data x)))).

Definition std_ref (x : tensor) : spec_float :=
  let m := mean_ref x in
  let sq := map (fun v => let d := SFsub prec emax v m in SFmul prec emax d d)
                (data x) in
  SFsqrt prec emax
    (SFdiv prec emax (fsum sq) (of_Z (Z.of_nat (length (data x)) - 1))).

Definition torch_ref : Torch :=
  {| t_prec := prec; t_emax := emax;
     t_mean := mean_ref; t_std := std_ref;
     t_transpose := fun _ _ _ => inl (RuntimeError "not provided");
     t_matmul := fun _ _ => inl (RuntimeError "not provided");
     t_sum := fun _ _ => inl (RuntimeError "not provided");
     t_pad_mode := fun _ _ _ => inl (RuntimeError "not provided") |}.

End Reference.

(** float32, torch's default dtype, and float64 *)
Definition torch_float32 : Torch := torch_ref 24 128.
Definition torch_float64 : Torch := torch_ref 53 1024.

(** Classification of elements *)
Definition is_nan (v : spec_float) : bool :=
  match v with S754_nan => true | _ => false end.

Definition is_zero (v : spec_float) : bool :=
  match v with S754_zero _ => true | _ => false end.

Definition is_infinite (v : spec_float) : bool :=
  match v with S754_infinity _ => true | _ => false end.

(** zero, subnormal or normal: neither NaN nor an infinity *)
Definition is_finite (v : spec_float) : bool :=
  match v with S754_zero _ | S754_finite _ _ _ => true | _ => false end.

Definition is_nonzero_finite (v : spec_float) : bool :=
  match v with S754_finite _ _ _ => true | _ => false end.

End Transforms.

(* ===================================================================== *)
(** * src/dn3/trainable/trainable.py                                     *)
(* ===================================================================== *)

Module Trainable.

(** ** Objects and their attributes *)

(** The Python values that end up in a trainable's [__dict__]. *)
Inductive pyval : Type :=
| PNone
| PBool (b : bool)
| PStr (s : string)
| PInt (n : Z)
| PDevice (name : string)                      (* torch.device(name) *)
| PModule (name : string) (has_parameters : bool) (placed : option string)
            (* a torch.nn.Module, whether it holds parameters or buffers,
               and where .to() put it *)
| PParameters (module : string) (nonempty : bool)   (* module.parameters() *)
| PAdam (module : string)                      (* torch.optim.Adam(module.parameters()) *)
| PObject (name : string).                     (* any other object *)

Abbreviation obj := (gmap string pyval).
Abbreviation kwargs := (gmap string pyval).

Definition is_bool (v : pyval) : bool :=
  match v with PBool _ => true | _ => false end.

Definition is_str (v : pyval) : bool :=
  match v with PStr _ => true | _ => false end.

Definition is_None (v : pyval) : bool :=
  match v with PNone => true | _ => false end.

(** [self.name = v] and [self.name] *)
Definition setattr (name : string) (v : pyval) : M obj unit :=
  modify (insert name v).

Definition getattr (name : string) : M obj pyval :=
  let* self := get in
  match self !! name with
  | Some v => ret v
  | None => raise (AttributeError name)
  end.

(** The check of line 26 passes for a [bool] or a [str]. *)
Definition cuda_accepted (cuda : pyval) : bool := is_bool cuda || is_str cuda.

(** The device string lines 24-25 arrive at. *)
Definition device_name (cuda : pyval) : string :=
  match cuda with
  | PBool b => if b then "cuda" else "cpu"
  | PStr name => name
  | _ => ""
  end.

Section Framework.

(** Which device strings [torch.device] accepts, and what moving a tensor to
    a device raises on the machine at hand, if anything: [AssertionError]
    (Torch not compiled with CUDA enabled) for a CUDA device on a CPU-only
    build, [RuntimeError] where there is no such device. *)
Variable device_ok : string -> bool.
Variable move_fails : string -> option exn.

Definition torch_device (name : string) : exn + pyval :=
  if device_ok name then inr (PDevice name)
  else inl (RuntimeError "Expected one of cpu, cuda, ... device type").

(** [m.to(device)]: the parameters and buffers of the module are moved; a
    module that holds none has nothing to move. *)
Definition to_device (m device : pyval) : exn + pyval :=
  match m, device with
  | PModule name has_parameters _, PDevice d =>
      if has_parameters then
        match move_fails d with
        | Some e => inl e
        | None => inr (PModule name has_parameters (Some d))
        end
      else inr (PModule name has_parameters (Some d))
  | _, _ => inl (AttributeError "to")
  end.

(** [torch.optim.Adam(params)] *)
Definition torch_optim_Adam (params : pyval) : exn + pyval :=
  match params with
  | PParameters name nonempty =>
      if nonempty then inr (PAdam name)
      else inl (ValueError "optimizer got an empty parameter list")
  | _ => inl (TypeError "params argument given to the optimizer should be an iterable")
  end.

End Framework.

(** ** Numbers *)

(** A Python [float] is an IEEE-754 binary64 number.  [float(k)] for an
    [int] is the nearest one, and [OverflowError] when that is out of range. *)
Definition float_of_int (k : Z) : exn + spec_float :=
  match binary_normalize 53 1024 k 0 false with
  | S754_infinity _ => inl OverflowError
  | x => inr x
  end.

(** [x * k] and [x / k] for a [float] and an [int]: the [int] is converted
    first; dividing by zero raises. *)
Definition float_mul_int (x : spec_float) (k : Z) : exn + spec_float :=
  match float_of_int k with
  | inl e => inl e
  | inr y => inr (SFmul 53 1024 x y)
  end.

Definition float_div_int (x : spec_float) (k : Z) : exn + spec_float :=
  match float_of_int k with
  | inl e => inl e
  | inr y =>
      if Transforms.is_zero y then inl ZeroDivisionError
      else inr (SFdiv 53 1024 x y)
  end.

(** The rational a finite float stands for. *)
Definition Q_of_float (x : spec_float) : option Q :=
  match x with
  | S754_zero _ => Some 0%Q
  | S754_finite s m e =>
      Some (inject_Z (if s then Z.neg m else Z.pos m) * Qpower 2 e)%Q
  | _ => None
  end.

(** What a row of a log holds: the [int]s and [float]s put there. *)
Inductive number : Type :=
| PyInt (n : Z)
| PyFloat (x : spec_float).

(** ** The calls into the framework *)

(** The calls the wrapper makes, in the order it makes them. *)
Inductive event : Type :=
| SetTrain (flag : bool)     (* self.classifier.train(flag) *)
| NextBatch                  (* next(data_iterator) *)
| ToDevice                   (* x.to(self.device) for the batch *)
| Forward                    (* the network is applied *)
| Loss                       (* the loss function is applied *)
| ZeroGrad                   (* self.optimizer.zero_grad() *)
| Backward                   (* loss.backward() *)
| OptimizerStep              (* self.optimizer.step() *)
| SchedulerStep              (* self.scheduler.step() *)
| Metrics                    (* the tracked metrics are computed *)
| Postfix                    (* pbar.set_postfix(...) *)
| AppendTrainLog             (* train_log.append(train_metrics) *)
| StepCallback               (* step_callback(train_metrics) *)
| Write                      (* tqdm.tqdm.write(...) in standard_logging *)
| AppendValidationLog        (* validation_log.append(val_metrics) *)
| EpochCallback.             (* epoch_callback(val_metrics) *)

Abbreviation trace := (list event).

(** The metrics [calculate_metrics] reports are [float]s by name; a row of a
    log holds these and the counters added to them. *)
Abbreviation metrics_dict := (gmap string spec_float).
Abbreviation log_row := (gmap string number).

Definition emit (e : event) : M trace unit := modify (fun tr => tr ++ [e]).

(** A framework routine that computes [v]: the call is recorded and its
    value returned. *)
Definition calling {A} (e : event) (v : A) : M trace A := emit e ;; ret v.

(** A loop that carries a local value through its iterations:
    [for x in xs: acc = body(acc, x)]. *)
Fixpoint for_acc {St A B} (xs : list A) (acc : B) (body : B -> A -> M St B)
    : M St B :=
  match xs with
  | [] => ret acc
  | x :: xs' => let* acc' := body acc x in for_acc xs' acc' body
  end.

(** [list(enumerate(xs, start))] *)
Fixpoint enumerate {A} (start : Z) (xs : list A) : list (Z * A) :=
  match xs with
  | [] => []
  | x :: xs' => (start, x) :: enumerate (start + 1) xs'
  end.

(** [d.setdefault(k, v)] *)
Definition setdefault {V} (k : string) (v : V) (d : gmap string V)
    : gmap string V :=
  match d !! k with
  | Some _ => d
  | None => <[k := v]> d
  end.

(** The calls the batch loop of [fit] makes for one batch. *)
Definition batch_calls (step_callback : bool) : list event :=
  [NextBatch; ToDevice; Forward; Loss; ZeroGrad; Backward; Metrics; Postfix;
   AppendTrainLog] ++ (if step_callback then [StepCallback] else []).



Section Averages.

Variables batch output : Type.
Variable network : batch -> output.
Variable calculate_metrics_of : batch -> output -> metrics_dict.


End Averages.

(** A computation during which the optimizer is not stepped: whatever it
    adds to the trace holds no [OptimizerStep]. *)
Definition steps_no_optimizer {A} (c : M trace A) : Prop :=
  forall tr, exists added, snd (c tr) = tr ++ added /\ OptimizerStep ∉ added.

(** A computation all of whose calls are among the [allowed] ones. *)
Definition emits_only {A} (allowed : event -> bool) (c : M trace A) : Prop :=
  forall tr, exists added,
    snd (c tr) = tr ++ added /\ forallb allowed added = true.

(** The calls that belong to a training step only: the classifier is put in
    training mode, the optimizer or the scheduler is stepped. *)
Definition training_mode_call (e : event) : bool :=
  match e with
  | SetTrain true | OptimizerStep | SchedulerStep => true
  | _ => false
  end.

(** The calls of the loop of [BaseTrainable.evaluate]. *)
Definition evaluation_call (e : event) : bool :=
  match e with
  | NextBatch | Forward | Metrics | Postfix => true
  | _ => false
  end.

(** ** class BaseTrainable *)

Module BaseTrainable.

(** Lines 39-44 and 46-55. *)
Definition build_network (kw : kwargs) : M obj unit := raise NotImplementedError.

Definition parameters : M obj pyval := raise NotImplementedError.

Section Construction.

Variable device_ok : string -> bool.
Variable move_fails : string -> option exn.

(** [self.build_network] and [self.parameters]: the methods of the class
    the object belongs to. *)
Variable self_build_network : kwargs -> M obj unit.
Variable self_parameters : M obj pyval.

(** Lines 32-35 of [__init__]: the members in
    [_before_members.difference(self.__dict__.keys())] are looked up and, when
    they are modules, moved to the device. *)
Definition place_new_members (_before_members : gset string) : M obj unit :=
  let* after := get in
  let new_members := _before_members ∖ dom after in
  for_each (elements new_members) (fun member =>
    let* self := get in
    match self !! member with
    | None => raise (KeyError member)
    | Some (PModule name has_parameters placed) =>
        let* dev := getattr "device" in
        let* moved :=
          lift (to_device move_fails (PModule name has_parameters placed) dev) in
        modify (insert member moved)
    | Some _ => ret tt
    end).

(** Line 37 of [__init__]. *)
Definition choose_optimizer (optimizer : pyval) : M obj unit :=
  if is_None optimizer then
    let* params := self_parameters in
    let* adam := lift (torch_optim_Adam params) in
    setattr "optimizer" adam
  else setattr "optimizer" optimizer.

(** [BaseTrainable.__init__] (lines 23-37). *)
Definition __init__ (optimizer scheduler cuda : pyval) (kw : kwargs)
    : M obj unit :=
  setattr "cuda" cuda ;;
  let cuda1 :=
    match cuda with
    | PBool b => PStr (if b then "cuda" else "cpu")
    | other => other
    end in
  assert (is_str cuda1) ;;
  let* device := lift (match cuda1 with
                       | PStr name => torch_device device_ok name
                       | _ => inl (TypeError "device")
                       end) in
  setattr "device" device ;;
  setattr "scheduler" scheduler ;;
  let* before := get in
  let _before_members : gset string := dom before in
  self_build_network kw ;;
  place_new_members _before_members ;;
  choose_optimizer optimizer.

End Construction.

(** The right-hand side of line 138,
    [(metrics[m] * (iterations - 1) + new_metrics[m]) / iterations], on
    [float]s and the [int] [iterations]. *)
Definition running_update (old new : spec_float) (iterations : Z)
    : exn + spec_float :=
  match float_mul_int old (iterations - 1) with
  | inl e => inl e
  | inr scaled => float_div_int (SFadd 53 1024 scaled new) iterations
  end.

(** The [else] branch of [update_metrics] (lines 137-138), one key at a time. *)
Fixpoint update_each (iterations : Z) (new_items : list (string * spec_float))
    (metrics : metrics_dict) : exn + metrics_dict :=
  match new_items with
  | [] => inr metrics
  | (m, v) :: rest =>
      match metrics !! m with
      | None => inl (KeyError m)
      | Some old =>
          match running_update old v iterations with
          | inl e => inl e
          | inr average =>
              update_each iterations rest (<[m := average]> metrics)
          end
      end
  end.

(** [update_metrics] of [evaluate] (lines 133-138); the dictionary [metrics]
    it closes over is passed in and handed back. *)
Definition update_metrics (metrics new_metrics : metrics_dict) (iterations : Z)
    : exn + metrics_dict :=
  if (size metrics =? 0)%nat then inr (new_metrics ∪ metrics)
  else update_each iterations (map_to_list new_metrics) metrics.




(** Lines 85-100: unless a subclass says otherwise no metric is tracked. *)
Definition calculate_metrics {batch output : Type} (inputs : batch)
    (outputs : output) : M trace metrics_dict :=
  calling Metrics (∅ : metrics_dict).

(** [BaseTrainable.standard_logging] (lines 150-158): one line is written. *)
Definition standard_logging (metrics : metrics_dict) : M trace unit :=
  emit Write.

Section Loops.

(** What the data loader yields, and what the network returns. *)
Variables batch output : Type.

(** [self.forward], [self.calculate_loss] and [self.calculate_metrics]: the
    methods of the class the object belongs to, [self.forward] as the line in
    question calls it (with the batch unpacked into arguments in [train_step],
    with the batch as its one argument in [evaluate]). *)
Variable self_forward : batch -> M trace output.
Variable self_calculate_loss : batch -> output -> M trace spec_float.
Variable self_calculate_metrics : batch -> output -> M trace metrics_dict.

(** [self.scheduler is not None] *)
Variable has_scheduler : bool.

(** [BaseTrainable.backward] (lines 102-104). *)
Definition backward (loss : spec_float) : M trace unit :=
  emit ZeroGrad ;; emit Backward.

(** [BaseTrainable.train_step] (lines 106-114). *)
Definition train_step (inputs : batch) : M trace metrics_dict :=
  let* outputs := self_forward inputs in
  let* loss := self_calculate_loss inputs outputs in
  backward loss ;;
  emit OptimizerStep ;;
  (if has_scheduler then emit SchedulerStep else ret tt) ;;
  self_calculate_metrics inputs outputs.

(** One iteration of the loop of [evaluate] (lines 142-145). *)
Definition evaluate_batch (metrics : metrics_dict) (iteration : Z) (b : batch)
    : M trace metrics_dict :=
  emit NextBatch ;;
  let inputs := b in
  let* outputs := self_forward inputs in
  let* new_metrics := self_calculate_metrics inputs outputs in
  let* metrics' := lift (update_metrics metrics new_metrics (iteration + 1)) in
  emit Postfix ;;
  ret metrics'.

(** [BaseTrainable.evaluate] (lines 129-147). *)
Definition evaluate (dataset : list batch) : M trace metrics_dict :=
  for_acc (enumerate 0 dataset) (∅ : metrics_dict)
    (fun metrics '(iteration, b) => evaluate_batch metrics iteration b).

End Loops.

End BaseTrainable.

Section Averaged.
Variables batch output : Type.
Variable network : batch -> output.
Variable calculate_metrics_of : batch -> output -> metrics_dict.

End Averaged.

(** ** class StandardClassifier(BaseTrainable) *)

Module StandardClassifier.

(** Lines 167-169; any keyword other than [classifier] is a [TypeError] of
    the call itself. *)
Definition build_network (kw : kwargs) : M obj unit :=
  if bool_decide (dom kw ⊆ ({["classifier"]} : gset string)) then
    let classifier := default PNone (kw !! "classifier") in
    assert (negb (is_None classifier)) ;;
    setattr "classifier" classifier
  else raise (TypeError "build_network() got an unexpected keyword argument").

(** Lines 171-172. *)
Definition parameters : M obj pyval :=
  let* classifier := getattr "classifier" in
  match classifier with
  | PModule name has_parameters _ => ret (PParameters name has_parameters)
  | _ => raise (AttributeError "parameters")
  end.

(** Lines 163-165.  [torch.nn.CrossEntropyLoss()] holds no parameters. *)
Definition __init__ (device_ok : string -> bool)
    (move_fails : string -> option exn)
    (classifier loss_fn cuda : pyval) : M obj unit :=
  BaseTrainable.__init__ device_ok move_fails build_network parameters
    PNone PNone cuda {["classifier" := classifier]} ;;
  let* dev := getattr "device" in
  let* loss :=
    lift (to_device move_fails
            (if is_None loss_fn then PModule "CrossEntropyLoss" false None
             else loss_fn) dev) in
  setattr "loss" loss.

Section Loops.

Variables batch output : Type.

(** What [self.classifier] computes from the first tensor of a batch, what
    it does when it is handed the batch itself (an ordinary module raises
    [TypeError] on a list of tensors), and what [self.loss] evaluates to. *)
Variable network : batch -> output.
Variable network_on_batch : batch -> exn + output.
Variable loss_value : batch -> output -> spec_float.

(** The metrics the object's [calculate_metrics] reports for a batch: none
    for a [StandardClassifier] as it stands (it inherits the method), those
    of the override for a subclass. *)
Variable calculate_metrics_of : batch -> output -> metrics_dict.

(** [self.scheduler is not None], and the optimizer's learning rate. *)
Variable has_scheduler : bool.
Variable lr : spec_float.

(** [forward] (lines 182-183) applies the classifier to [inputs[0]].  Called
    with the batch unpacked into arguments (lines 107 and 221) that is the
    first tensor of the batch. *)
Definition forward (inputs : batch) : M trace output :=
  calling Forward (network inputs).

(** Called with the batch as its one argument (line 143, in [evaluate]),
    [inputs[0]] is the batch itself. *)
Definition forward_on_batch (inputs : batch) : M trace output :=
  emit Forward ;; lift (network_on_batch inputs).

(** [calculate_loss] (lines 185-186). *)
Definition calculate_loss (inputs : batch) (outputs : output)
    : M trace spec_float :=
  calling Loss (loss_value inputs outputs).

Definition calculate_metrics (inputs : batch) (outputs : output)
    : M trace metrics_dict :=
  calling Metrics (calculate_metrics_of inputs outputs).

(** [StandardClassifier.train_step] (lines 174-176). *)
Definition train_step (inputs : batch) : M trace metrics_dict :=
  emit (SetTrain true) ;;
  BaseTrainable.train_step batch output forward calculate_loss calculate_metrics
    has_scheduler inputs.

(** [StandardClassifier.evaluate] (lines 178-180). *)
Definition evaluate (dataset : list batch) : M trace metrics_dict :=
  emit (SetTrain false) ;;
  BaseTrainable.evaluate batch output forward_on_batch calculate_metrics dataset.

(** The body of the batch loop of [fit] (lines 220-232). *)
Definition fit_batch (step_callback : bool) (epoch iteration : Z) (b : batch)
    (train_log : list log_row) : M trace (list log_row) :=
  emit NextBatch ;; emit ToDevice ;;
  let inputs := b in
  let* outputs := forward inputs in
  let* loss := calculate_loss inputs outputs in
  BaseTrainable.backward loss ;;
  let* train_metrics := calculate_metrics inputs outputs in
  let train_metrics : log_row :=
    setdefault "loss" (PyFloat loss) (PyFloat <$> train_metrics) in
  emit Postfix ;;
  let train_metrics := <["epoch" := PyInt epoch]> train_metrics in
  let train_metrics := <["iteration" := PyInt iteration]> train_metrics in
  let train_metrics := <["lr" := PyFloat lr]> train_metrics in
  emit AppendTrainLog ;;
  (if step_callback then emit StepCallback else ret tt) ;;
  ret (train_log ++ [train_metrics]).

(** The body of the epoch loop of [fit] (lines 217-242). *)
Definition fit_epoch (training_dataset : list batch)
    (validation_dataset : option (list batch))
    (step_callback epoch_callback : bool) (epoch : Z)
    (logs : list log_row * list log_row)
    : M trace (list log_row * list log_row) :=
  let* train_log :=
    for_acc (enumerate 1 training_dataset) (fst logs)
      (fun train_log '(iteration, b) =>
         fit_batch step_callback epoch iteration b train_log) in
  match validation_dataset with
  | Some vd =>
      let* val_metrics := evaluate vd in
      BaseTrainable.standard_logging val_metrics ;;
      let val_metrics : log_row :=
        <["epoch" := PyInt epoch]> (PyFloat <$> val_metrics) in
      emit AppendValidationLog ;;
      (if epoch_callback then emit EpochCallback else ret tt) ;;
      ret (train_log, snd logs ++ [val_metrics])
  | None => ret (train_log, snd logs)
  end.

(** [StandardClassifier.fit] (lines 212-244): the rows of the two data
    frames it returns. *)
Definition fit (training_dataset : list batch) (epochs : Z)
    (validation_dataset : option (list batch))
    (step_callback epoch_callback : bool)
    : M trace (list log_row * list log_row) :=
  for_acc (py_range 1 (epochs + 1)) ([], [])
    (fun logs epoch =>
       fit_epoch training_dataset validation_dataset
         step_callback epoch_callback epoch logs).

End Loops.

End StandardClassifier.

End Trainable.

(* ===================================================================== *)
(** * The dataset wrapper used by src/tests/testTransforms.py            *)
(* ===================================================================== *)

Module Dataset.
Import Transforms.

(** Modelled from the spec: the dataset class that [create_dummy_dataset]
    returns is not among the sources.  What it holds is taken to be a list
    of recordings, each known by its person and its session. *)
Record recording : Type := { person : string; session : string }.

(** Modelled from the spec: the dataset class is not among the sources.  A
    dataset is its recordings together with the list [_transforms] of the
    transforms registered on it, which the test inspects. *)
Record dataset : Type := {
  recordings : list recording;
  _transforms : list transform
}.

(** Modelled from the spec: [add_transform] is missing from the sources; it
    registers the transform on the dataset (the test expects to find it in
    [_transforms] afterwards). *)
Definition add_transform (tr : transform) (d : dataset) : dataset :=
  {| recordings := recordings d; _transforms := _transforms d ++ [tr] |}.

(** Modelled from the spec: [clear_transforms] is missing from the sources;
    it drops every registered transform. *)
Definition clear_transforms (d : dataset) : dataset :=
  {| recordings := recordings d; _transforms := [] |}.

(** Modelled from the spec: the splitting operations are missing from the
    sources.  Each hands out parts of the dataset; a part holds some of the
    recordings and, the registration surviving the split, the same
    transforms. *)
Definition part (d : dataset) (keep : recording -> bool) : dataset :=
  {| recordings := filter (fun r => keep r = true) (recordings d);
     _transforms := _transforms d |}.

(** Modelled from the spec: membership of an identifier in the list a
    splitting operation is given. *)
Definition among (ids : list string) (id : string) : bool :=
  bool_decide (id ∈ ids).

(** Modelled from the spec: [split(testing_sess_ids=..., validation_sess_ids=...)]
    is missing from the sources; it returns the training, validation and
    testing parts, chosen by session. *)
Definition split (d : dataset) (testing_sess_ids validation_sess_ids : list string)
    : dataset * dataset * dataset :=
  (part d (fun r => negb (among testing_sess_ids (session r))
                    && negb (among validation_sess_ids (session r))),
   part d (fun r => among validation_sess_ids (session r)),
   part d (fun r => among testing_sess_ids (session r))).

Section Folds.

(** Which persons are held out for validation and for testing in each fold;
    the schedule is left open. *)
Variable folds : list recording -> list (list string * list string).

(** Modelled from the spec: the training, validation and testing parts of
    one fold, chosen by person. *)
Definition by_person (d : dataset) (held_out : list string * list string)
    : dataset * dataset * dataset :=
  let '(validating, testing) := held_out in
  (part d (fun r => negb (among validating (person r))
                    && negb (among testing (person r))),
   part d (fun r => among validating (person r)),
   part d (fun r => among testing (person r))).

(** Modelled from the spec: [lmso()] is missing from the sources; it yields
    the three parts fold by fold, several persons being left out at a time. *)
Definition lmso (d : dataset) : list (dataset * dataset * dataset) :=
  map (by_person d) (folds (recordings d)).

(** Modelled from the spec: [loso()] is missing from the sources; it yields
    the three parts fold by fold, one person being left out for testing. *)
Definition loso (d : dataset) : list (dataset * dataset * dataset) :=
  map (by_person d)
      (filter (fun f => length (fst f) <= 1 /\ length (snd f) = 1)%nat
              (folds (recordings d))).

End Folds.

End Dataset.

(* ===================================================================== *)
(** * Properties of src/layers.py                                        *)
(* ===================================================================== *)

Section LayersFacts.
Import Layers.

Lemma py_insert_at {A} (l : list A) (i : Z) (x : A) :
  0 <= i <= Z.of_nat (length l) ->
  py_insert l i x = take (Z.to_nat i) l ++ x :: drop (Z.to_nat i) l.
Proof.
  intros Hi. unfold py_insert.
  destruct (Z.ltb_spec i 0) as [Hneg|_]; [lia|].
  now rewrite Z.min_l by lia.
Qed.

(** For the negative axes TensorFlow accepts, among them the default
    [axis=-1], the declared signature is the shape [call] produces. *)
Lemma compute_output_signature_negative_axis (self : ExpandLayer.t)
    (sh : list Z) :
  - (Z.of_nat (length sh) + 1) <= ExpandLayer.axis self < 0 ->
  ExpandLayer.call self sh = inr (ExpandLayer.compute_output_signature self sh).
Proof.
  intros Hax.
  unfold ExpandLayer.call, expand_dims_shape, ExpandLayer.compute_output_signature.
  destruct (Z.ltb_spec (ExpandLayer.axis self) 0) as [_|Hge]; [|lia].
  replace ((- (Z.of_nat (length sh) + 1) <=? ExpandLayer.axis self)
           && (ExpandLayer.axis self <=? Z.of_nat (length sh))) with true
    by (symmetry; apply andb_true_iff; split; apply Z.leb_le; lia).
  rewrite py_insert_at by lia.
  now replace (Z.of_nat (length sh) + ExpandLayer.axis self + 1)
    with (ExpandLayer.axis self + Z.of_nat (length sh) + 1) by lia.
Qed.

(** For an axis from 0 up to the rank, the declared signature has the new
    dimension one place too far to the right: where [call] puts the 1, the
    signature still shows the input's own dimension. *)
Lemma compute_output_signature_nonneg_axis (self : ExpandLayer.t)
    (sh : list Z) (n : Z) :
  0 <= ExpandLayer.axis self ->
  sh !! Z.to_nat (ExpandLayer.axis self) = Some n -> n <> 1 ->
  exists declared produced,
    ExpandLayer.compute_output_signature self sh = declared /\
    ExpandLayer.call self sh = inr produced /\
    produced !! Z.to_nat (ExpandLayer.axis self) = Some 1 /\
    declared !! Z.to_nat (ExpandLayer.axis self) = Some n.
Proof.
  intros Hax Hn Hne.
  pose proof (lookup_lt_Some _ _ _ Hn) as Hlt.
  unfold ExpandLayer.compute_output_signature, ExpandLayer.call, expand_dims_shape.
  destruct (Z.ltb_spec (ExpandLayer.axis self) 0) as [|_]; [lia|].
  rewrite py_insert_at by lia.
  replace ((- (Z.of_nat (length sh) + 1) <=? ExpandLayer.axis self)
           && (ExpandLayer.axis self <=? Z.of_nat (length sh))) with true
    by (symmetry; apply andb_true_iff; split; apply Z.leb_le; lia).
  eexists _, _. split; [reflexivity|]. split; [reflexivity|]. split.
  - rewrite lookup_app_r by (rewrite length_take; lia).
    rewrite length_take. replace (_ - _)%nat with 0%nat by lia. reflexivity.
  - rewrite lookup_app_l by (rewrite length_take; lia).
    rewrite lookup_take_lt by lia. exact Hn.
Qed.

(** C9, at [axis=0] on an input of shape (2, 3): [compute_output_signature]
    declares (2, 1, 3) while [call], through [tf.expand_dims], yields a
    tensor of shape (1, 2, 3). *)
Theorem compute_output_signature_axis0_mismatch :
  ExpandLayer.compute_output_signature (ExpandLayer.__init__ 0) [2; 3] = [2; 1; 3] /\
  ExpandLayer.call (ExpandLayer.__init__ 0) [2; 3] = inr [1; 2; 3] /\
  ExpandLayer.call (ExpandLayer.__init__ 0) [2; 3]
    <> inr (ExpandLayer.compute_output_signature (ExpandLayer.__init__ 0) [2; 3]).
Proof. repeat split; try reflexivity. discriminate. Qed.

(** C10, as the code has it.  When [style] is none of ['local', 'global']
    the constructor raises its [TypeError], and the base class is not
    reached.  For those two values it stores [style] and hands over to the
    constructor of the LSTM base class with [units], the implementation and
    the keyword arguments: it raises whatever that one raises, and completes
    exactly when that one does; the object then stores [style], and its
    [alignment_depth] is the length of [alignment_units] whenever that
    argument is a list or tuple, whatever [alignment_depth] was passed. *)
Theorem AttentionLSTMIn_init_style (kwargs : Type)
    (LSTM__init__ : Z -> Z -> kwargs -> option exn) (u d : Z) (st : pystr)
    (au : AttentionLSTMIn.alignment_units_arg) (impl : Z) (kw : kwargs) :
  (chars st <> "local"%string /\ chars st <> "global"%string ->
     AttentionLSTMIn.__init__ LSTM__init__ u d st au impl kw
     = inl (TypeError ("Could not understand style: " ++ chars st))) /\
  (chars st = "local"%string \/ chars st = "global"%string ->
     (forall e, LSTM__init__ u (if impl >? 0 then impl else 2) kw = Some e ->
        AttentionLSTMIn.__init__ LSTM__init__ u d st au impl kw = inl e) /\
     (LSTM__init__ u (if impl >? 0 then impl else 2) kw = None ->
        exists self,
          AttentionLSTMIn.__init__ LSTM__init__ u d st au impl kw = inr self /\
          AttentionLSTMIn.style self = st /\
          forall l, au = AttentionLSTMIn.AU_Seq l ->
            AttentionLSTMIn.alignment_depth self = Z.of_nat (length l) /\
            AttentionLSTMIn.alignment_units self = l)).
Proof.
  assert (Hmem : chars st ∈ AttentionLSTMIn.ATT_STYLES
                 <-> chars st = "local"%string \/ chars st = "global"%string).
  { unfold AttentionLSTMIn.ATT_STYLES. rewrite !elem_of_cons, elem_of_nil. tauto. }
  unfold AttentionLSTMIn.__init__.
  destruct (match au with
            | AttentionLSTMIn.AU_Seq l => (l, Z.of_nat (length l))
            | _ => _ end) as [su sd] eqn:Hau.
  case_bool_decide as Hst.
  - split.
    + intros [H1 H2]. apply Hmem in Hst. tauto.
    + intros _. split.
      * intros e ->. reflexivity.
      * intros ->. eexists. split; [reflexivity|]. split; [reflexivity|].
        intros l ->. simpl. inversion Hau. auto.
  - split.
    + intros _. reflexivity.
    + intros Hin. apply Hmem in Hin. contradiction.
Qed.

End LayersFacts.

Section LayersExamples.
Import Layers.

(** C10, as stated, fails twice.  With a base constructor that, as Keras's
    does, wants positive [units] and knows no keyword [colour]:
    [AttentionLSTMIn(0)], whose style is the default ['local'], does not
    complete but raises [ValueError]; and [AttentionLSTMIn(8, colour=1)]
    raises [TypeError] although its style is ['local']. *)
Lemma AttentionLSTMIn_init_counterexample :
  let LSTM__init__ := fun (units _ : Z) (kw : list string) =>
    if units <=? 0 then Some (ValueError "units must be a positive integer")
    else if bool_decide ("colour"%string ∈ kw)
         then Some (TypeError "Keyword argument not understood: colour")
         else None in
  chars (literal "local") = "local"%string /\
  AttentionLSTMIn.__init__ LSTM__init__ 0 1 (literal "local")
    AttentionLSTMIn.AU_None 2 []
  = inl (ValueError "units must be a positive integer") /\
  AttentionLSTMIn.__init__ LSTM__init__ 8 1 (literal "local")
    AttentionLSTMIn.AU_None 2 ["colour"%string]
  = inl (TypeError "Keyword argument not understood: colour").
Proof. repeat split; vm_compute; reflexivity. Qed.

End LayersExamples.

(* ===================================================================== *)
(** * Properties of the monad                                            *)
(* ===================================================================== *)

Lemma bind_ret_l {St A B} (a : A) (k : A -> M St B) (s : St) :
  bind (ret a) k s = k a s.
Proof. reflexivity. Qed.

Lemma bind_lift_inr {St A B} (a : A) (k : A -> M St B) (s : St) :
  bind (lift (inr a)) k s = k a s.
Proof. reflexivity. Qed.

Lemma bind_lift_inl {St A B} (e : exn) (k : A -> M St B) (s : St) :
  bind (lift (inl e)) k s = (inl e, s).
Proof. reflexivity. Qed.

Lemma read_only_ret {St A} (a : A) : read_only (@ret St A a).
Proof. intros s. reflexivity. Qed.

Lemma read_only_raise {St A} (e : exn) : read_only (@raise St A e).
Proof. intros s. reflexivity. Qed.

Lemma read_only_get {St} : read_only (@get St).
Proof. intros s. reflexivity. Qed.

Lemma read_only_lift {St A} (r : exn + A) : read_only (@lift St A r).
Proof. intros s. reflexivity. Qed.

Lemma read_only_bind {St A B} (c : M St A) (k : A -> M St B) :
  read_only c -> (forall a, read_only (k a)) -> read_only (bind c k).
Proof.
  intros Hc Hk s. unfold bind. specialize (Hc s).
  destruct (c s) as [[e|a] s']; simpl in *; subst s'; [reflexivity|apply Hk].
Qed.

Lemma bind_run {St A B} (c : M St A) (k : A -> M St B) (s : St) :
  bind c k s = match c s with
               | (inr a, s') => k a s'
               | (inl e, s') => (inl e, s')
               end.
Proof. reflexivity. Qed.

Create HintDb read_only.

#[local] Hint Resolve read_only_ret read_only_raise read_only_get
  read_only_lift : read_only.

Ltac read_only_tac :=
  repeat first
    [ apply read_only_bind; [|intros ?]
    | solve [auto with read_only]
    | match goal with |- read_only (if ?b then _ else _) => destruct b end ].

(* ===================================================================== *)
(** * IEEE-754 facts the normalisation rests on                          *)
(* ===================================================================== *)

Section FloatFacts.
Import Transforms.
Variables prec emax : Z.

Lemma shr_1_nonneg (mrs : shr_record) :
  0 <= shr_m mrs -> 0 <= shr_m (shr_1 mrs).
Proof.
  destruct mrs as [m r s]. simpl.
  destruct m as [|p|p]; [intros _; simpl; lia| |lia].
  intros _. destruct p; simpl; lia.
Qed.

Lemma iter_shr_1_nonneg (p : positive) (mrs : shr_record) :
  0 <= shr_m mrs -> 0 <= shr_m (SpecFloat.iter_pos shr_1 p mrs).
Proof.
  revert mrs. induction p as [p IH|p IH|]; intros mrs H; simpl.
  - apply IH, IH, shr_1_nonneg, H.
  - apply IH, IH, H.
  - apply shr_1_nonneg, H.
Qed.

Lemma shr_fexp_nonneg (m e : Z) (l : location) :
  0 <= m -> 0 <= shr_m (fst (shr_fexp prec emax m e l)).
Proof.
  intros Hm. unfold shr_fexp, shr.
  assert (H0 : 0 <= shr_m (shr_record_of_loc m l))
    by (destruct l as [|[]]; exact Hm).
  destruct (fexp prec emax (Zdigits2 m + e) - e); simpl; auto.
  now apply iter_shr_1_nonneg.
Qed.

Lemma round_nearest_even_nonneg (m : Z) (l : location) :
  0 <= m -> 0 <= round_nearest_even m l.
Proof.
  intros Hm. destruct l as [|[]]; simpl; try lia.
  destruct (Z.even m); lia.
Qed.

(** Rounding a non-negative mantissa never produces a NaN. *)
Lemma binary_round_aux_not_nan (sx : bool) (mx ex : Z) (lx : location) :
  0 <= mx -> is_nan (binary_round_aux prec emax sx mx ex lx) = false.
Proof.
  intros Hm. unfold binary_round_aux.
  pose proof (shr_fexp_nonneg mx ex lx Hm) as H1.
  destruct (shr_fexp prec emax mx ex lx) as [mrs' e']. simpl in H1.
  pose proof (shr_fexp_nonneg
                (round_nearest_even (shr_m mrs') (loc_of_shr_record mrs'))
                e' loc_Exact (round_nearest_even_nonneg _ _ H1)) as H2.
  destruct (shr_fexp prec emax _ e' loc_Exact) as [mrs'' e'']. simpl in H2.
  destruct (shr_m mrs'') as [|p|p]; [reflexivity| |lia].
  destruct (e'' <=? emax - prec); reflexivity.
Qed.

Lemma binary_normalize_not_nan (m e : Z) (sz : bool) :
  is_nan (binary_normalize prec emax m e sz) = false.
Proof.
  destruct m as [|p|p]; simpl; [reflexivity| |];
    unfold binary_round; destruct (shl_align _ _ _) as [mz ez];
    apply binary_round_aux_not_nan; lia.
Qed.

(** The difference of two finite numbers is a number (it may overflow to an
    infinity, it is never a NaN). *)
Lemma SFsub_finite_not_nan (a b : spec_float) :
  is_finite a = true -> is_finite b = true ->
  is_nan (SFsub prec emax a b) = false.
Proof.
  destruct a as [sa|sa| |sa ma ea], b as [sb|sb| |sb mb eb]; try discriminate;
    intros _ _; simpl.
  - destruct sa, sb; reflexivity.
  - reflexivity.
  - reflexivity.
  - apply binary_normalize_not_nan.
Qed.

(** Dividing a number by a finite nonzero number gives a number. *)
Lemma SFdiv_nonzero_not_nan (a s : spec_float) :
  is_nan a = false -> is_nonzero_finite s = true ->
  is_nan (SFdiv prec emax a s) = false.
Proof.
  destruct s as [| | |ss ms es]; try discriminate.
  destruct a as [sa|sa| |sa ma ea]; try discriminate; intros _ _; simpl;
    try reflexivity.
  unfold SFdiv_core_binary.
  set (m' := match _ - _ - _ with Z0 => _ | Zpos _ => _ | Zneg _ => _ end).
  assert (Hm' : 0 <= m').
  { unfold m'. destruct (_ - _ - _); try lia. apply Z.shiftl_nonneg. lia. }
  pose proof (Z.div_pos m' (Z.pos ms) Hm' eq_refl) as Hq. unfold Z.div in Hq.
  destruct (Z.div_eucl m' (Z.pos ms)) as [q r]. simpl in Hq.
  now apply binary_round_aux_not_nan.
Qed.

(** Dividing by a zero raises nothing: a zero or a NaN gives a NaN, every
    other number goes to an infinity. *)
Lemma SFdiv_zero (a s : spec_float) :
  is_zero s = true ->
  (is_zero a || is_nan a = true -> is_nan (SFdiv prec emax a s) = true) /\
  (is_zero a || is_nan a = false -> is_infinite (SFdiv prec emax a s) = true).
Proof.
  destruct s; try discriminate. intros _.
  destruct a; simpl; split; intros; try reflexivity; discriminate.
Qed.

End FloatFacts.

(* ===================================================================== *)
(** * Properties of src/dn3/transforms/basic.py                          *)
(* ===================================================================== *)

Section TransformsFacts.
Import Transforms.
Context {T : Torch}.

Lemma ZScore_call_read_only (x : tensor) : read_only (ZScore.__call__ x).
Proof. unfold ZScore.__call__. read_only_tac. Qed.

Lemma BaseTransform_call_read_only (x : tensor) :
  read_only (BaseTransform.__call__ x).
Proof. unfold BaseTransform.__call__. read_only_tac. Qed.

Lemma TemporalPadding_call_read_only (x : tensor) :
  read_only (TemporalPadding.__call__ x).
Proof. unfold TemporalPadding.__call__. read_only_tac. Qed.

Lemma MappingDeep1010_call_read_only (x : tensor) :
  read_only (MappingDeep1010.__call__ x).
Proof. unfold MappingDeep1010.__call__. read_only_tac. Qed.

Lemma on_read_only {St A} (inj : St -> transform) (c : M St A) (o : St) :
  read_only c -> snd (on inj c o) = inj o.
Proof.
  intros Hc. unfold on. specialize (Hc o).
  destruct (c o) as [r o']; simpl in *. now subst.
Qed.

Lemma call_unchanged (tr : transform) (x : tensor) : snd (call tr x) = tr.
Proof.
  destruct tr; unfold call; apply on_read_only;
    auto using BaseTransform_call_read_only, ZScore_call_read_only,
      TemporalPadding_call_read_only, MappingDeep1010_call_read_only.
Qed.

(** C5: calling a transform leaves every field of the transform object as
    it was, and a call on an equal input, made on the object as an earlier
    call left it, returns an equal output. *)
Theorem transforms_stateless (tr : transform) (x1 x2 : tensor) :
  snd (call tr x1) = tr /\
  (x1 = x2 -> fst (call (snd (call tr x1)) x2) = fst (call tr x1)).
Proof.
  split; [apply call_unchanged|].
  intros ->. now rewrite call_unchanged.
Qed.

Lemma ZScore_call_value (self : ZScore.t) (x : tensor) :
  ZScore.__call__ x self
    = (inr (VTensor (div_scalar (sub_scalar x (t_mean x)) (t_std x))), self).
Proof. reflexivity. Qed.

Lemma zscored_lookup (x : tensor) (i : nat) :
  data (div_scalar (sub_scalar x (t_mean x)) (t_std x)) !! i =
    (fun v => SFdiv t_prec t_emax (SFsub t_prec t_emax v (t_mean x)) (t_std x))
      <$> data x !! i.
Proof. simpl. rewrite map_map. apply list_lookup_fmap. Qed.

(** C2: [ZScore.__call__] returns the tensor the reference formula of the
    test suite describes: the same shape, and at every position the element
    of the input minus the mean of the input, divided by its standard
    deviation. *)
Theorem ZScore_call_reference (self : ZScore.t) (x : tensor) :
  ZScore.__call__ x self = (inr (VTensor (simple_zscoring x)), self) /\
  shape (simple_zscoring x) = shape x /\
  forall i : nat,
    data (simple_zscoring x) !! i =
      (fun v => SFdiv t_prec t_emax (SFsub t_prec t_emax v (t_mean x)) (t_std x))
        <$> data x !! i.
Proof.
  split; [apply ZScore_call_value|]. split; [reflexivity|].
  intros i. apply zscored_lookup.
Qed.

(** C8, as the code has it: the division by [x.std()] is unguarded and
    the call never raises.  When [x.std()] is finite and nonzero, every
    element computed from a finite input element and a finite mean is a
    number, not a NaN.  When [x.std()] is zero, an element of the result is
    NaN where the deviation of the input element from the mean is zero (or
    already NaN), as it is throughout a constant tensor whose mean is that
    constant, and an infinity where the deviation is anything else. *)
Theorem ZScore_call_unguarded_division (self : ZScore.t) (x : tensor) :
  exists y,
    ZScore.__call__ x self = (inr (VTensor y), self) /\
    shape y = shape x /\ length (data y) = length (data x) /\
    (is_nonzero_finite (t_std x) = true -> is_finite (t_mean x) = true ->
       forall (i : nat) v w, data x !! i = Some v -> data y !! i = Some w ->
         is_finite v = true -> is_nan w = false) /\
    (is_zero (t_std x) = true ->
       forall (i : nat) v w, data x !! i = Some v -> data y !! i = Some w ->
         let deviation := SFsub t_prec t_emax v (t_mean x) in
         (is_zero deviation || is_nan deviation = true -> is_nan w = true) /\
         (is_zero deviation || is_nan deviation = false -> is_infinite w = true)).
Proof.
  exists (div_scalar (sub_scalar x (t_mean x)) (t_std x)).
  pose proof (zscored_lookup x) as Hdata.
  split; [apply ZScore_call_value|]. split; [reflexivity|].
  split; [simpl; now rewrite !length_map|].
  split.
  - intros Hstd Hmean i v w Hv Hw Hfin.
    rewrite Hdata, Hv in Hw. injection Hw as <-.
    apply SFdiv_nonzero_not_nan; [|exact Hstd].
    now apply SFsub_finite_not_nan.
  - intros Hstd i v w Hv Hw deviation.
    rewrite Hdata, Hv in Hw. injection Hw as <-.
    now apply SFdiv_zero.
Qed.

(** ** TemporalPadding *)

Lemma pairs_length_two (pad : list Z) :
  length (pairs pad) = Nat.div2 (length pad).
Proof.
  enough (H : length (pairs pad) = Nat.div2 (length pad) /\
              forall a, length (pairs (a :: pad)) = Nat.div2 (S (length pad)))
    by apply H.
  induction pad as [|b pad [IH1 IH2]]; [split; [reflexivity|intros; reflexivity]|].
  split; [apply IH2|]. intros a. simpl. now rewrite IH1.
Qed.

Lemma py_range_length (lo hi : Z) : length (py_range lo hi) = Z.to_nat (hi - lo).
Proof. unfold py_range. now rewrite length_map, length_seq. Qed.

Lemma TemporalPadding_pad_length (s e n : Z) :
  Z.of_nat (length ([s; e] ++ map (fun _ : Z => 0) (py_range 2 n)))
    = 2 + Z.max 0 (n - 2).
Proof. simpl. rewrite length_map, py_range_length. lia. Qed.

(** On a channels-by-samples trial the call only goes through when the trial
    has at most two samples, or exactly four: the padding list grows with the
    number of samples, not with the number of dimensions. *)
Lemma TemporalPadding_call_raises (self : TemporalPadding.t) (x : tensor)
    (channels samples : Z) :
  shape x = [channels; samples] ->
  TemporalPadding.mode self = "constant"%string ->
  3 <= samples -> samples <> 4 ->
  exists e, fst (TemporalPadding.__call__ x self) = inl e.
Proof.
  intros Hsh Hmode H3 H4.
  unfold TemporalPadding.__call__, bind, get, lift, shape_last. rewrite Hsh. simpl last.
  cbv iota beta. unfold F_pad. rewrite Hmode.
  rewrite bool_decide_eq_true_2 by reflexivity.
  unfold constant_pad_nd.
  set (pad := [TemporalPadding.start_padding self; TemporalPadding.end_padding self]
                ++ map (fun _ : Z => 0) (py_range 2 samples)).
  assert (Hlen : Z.of_nat (length pad) = samples).
  { unfold pad. rewrite TemporalPadding_pad_length. lia. }
  rewrite Hlen.
  destruct (Z.even samples) eqn:Heven; simpl negb; cbv iota; [|eexists; reflexivity].
  rewrite Hsh, pairs_length_two.
  assert (Hge : (3 <= Nat.div2 (length pad))%nat).
  { apply Z.even_spec in Heven as [k Hk].
    assert (length pad = 2 * Z.to_nat k)%nat as -> by lia.
    rewrite Nat.div2_double. lia. }
  destruct (Nat.ltb_spec (length [channels; samples]) (Nat.div2 (length pad)))
    as [_|Hbad]; [eexists; reflexivity|].
  change (length [channels; samples]) with 2%nat in Hbad. lia.
Qed.

Lemma padded_shape_last (sh : list Z) (n : Z) (front : list (Z * Z)) (p : Z * Z) :
  length front = length sh ->
  last (padded_shape (sh ++ [n]) (front ++ [p])) = Some (n + fst p + snd p).
Proof.
  intros Hlen. unfold padded_shape.
  rewrite zip_with_app by (symmetry; exact Hlen).
  simpl. apply last_snoc.
Qed.

(** Whenever the call does return, the last dimension of the result is what
    [new_sequence_length] announces. *)
Lemma TemporalPadding_call_returns_length (self : TemporalPadding.t) (x y : tensor) :
  TemporalPadding.mode self = "constant"%string ->
  fst (TemporalPadding.__call__ x self) = inr (VTensor y) ->
  exists n, last (shape x) = Some n /\
    fst (TemporalPadding.new_sequence_length n self) = inr
      (n + TemporalPadding.start_padding self + TemporalPadding.end_padding self) /\
    last (shape y) =
      Some (n + TemporalPadding.start_padding self + TemporalPadding.end_padding self).
Proof.
  intros Hmode.
  unfold TemporalPadding.__call__, bind, get, lift, shape_last.
  destruct (last (shape x)) as [n|] eqn:Hlast; [|discriminate].
  cbv iota beta. unfold F_pad. rewrite Hmode.
  rewrite bool_decide_eq_true_2 by reflexivity.
  unfold constant_pad_nd.
  set (s := TemporalPadding.start_padding self).
  set (e := TemporalPadding.end_padding self).
  set (zeros := map (fun _ : Z => 0) (py_range 2 n)).
  destruct (negb _); [discriminate|].
  destruct (Nat.ltb_spec (length (shape x)) (length (pairs ([s; e] ++ zeros))))
    as [|Hfit]; [discriminate|].
  destruct (forallb _ _); [|discriminate].
  simpl. intros [= <-]. exists n. split; [reflexivity|]. split; [reflexivity|].
  simpl shape. apply last_Some in Hlast as [sh Hsh]. rewrite Hsh in *.
  unfold aligned_pairs. simpl pairs in *. simpl rev. rewrite app_assoc.
  rewrite padded_shape_last; [reflexivity|].
  rewrite length_app, repeat_length, length_rev.
  rewrite length_app in *. simpl in *. lia.
Qed.

(** C4, on the code: for a trial of 2 channels by 3 samples and one sample
    of padding on either side, [new_sequence_length] announces 5 samples but
    [__call__] raises and returns no tensor: the padding list it builds,
    [1, 1, 0], has odd length, which [torch.nn.functional.pad] refuses. *)
Theorem TemporalPadding_call_three_samples (a b c d e f : spec_float) :
  let self := TemporalPadding.__init__ 1 1 "constant" (S754_zero false) in
  let x := {| shape := [2; 3]; data := [a; b; c; d; e; f] |} in
  fst (TemporalPadding.new_sequence_length (3 : Z) self) = inr 5 /\
  (exists err, fst (TemporalPadding.__call__ x self) = inl err) /\
  (forall y, fst (TemporalPadding.__call__ x self) <> inr y).
Proof.
  split; [reflexivity|]. split; [eexists; reflexivity|].
  intros y. discriminate.
Qed.

End TransformsFacts.

Section TransformsExamples.
Import Transforms.

(** A constant float32 tensor whose mean comes out exact: every element of
    the result is NaN, and nothing is raised. *)
Example ZScore_constant_tensor :
  let one := of_Z 24 128 1 in
  let x := {| shape := [3]; data := [one; one; one] |} in
  is_zero (@t_std torch_float32 x) = true /\
  @ZScore.__call__ torch_float32 x ZScore.__init__ =
    (inr (VTensor {| shape := [3]; data := [S754_nan; S754_nan; S754_nan] |}),
     ZScore.__init__).
Proof. split; vm_compute; reflexivity. Qed.

(** C8, as stated, fails on the float64 tensor [0, 2^-600]: its mean is
    2^-601, the squared deviations 2^-1202 underflow to zero, so the standard
    deviation is zero, while the deviations themselves are not: the result
    is [-inf, +inf], not a tensor of NaN values. *)
Lemma ZScore_zero_std_gives_infinities :
  let x := {| shape := [2];
              data := [S754_zero false; binary_normalize 53 1024 1 (-600) false] |} in
  forallb (valid_binary 53 1024) (data x) = true /\
  is_zero (@t_std torch_float64 x) = true /\
  @ZScore.__call__ torch_float64 x ZScore.__init__ =
    (inr (VTensor {| shape := [2];
                     data := [S754_infinity true; S754_infinity false] |}),
     ZScore.__init__) /\
  ~ (forall w, w ∈ [S754_infinity true; S754_infinity false] -> is_nan w = true).
Proof.
  split; [vm_compute; reflexivity|].
  split; [vm_compute; reflexivity|]. split; [vm_compute; reflexivity|].
  intros H. specialize (H (S754_infinity true)).
  discriminate H. apply list_elem_of_here.
Qed.

(** A trial of 2 channels by 2 samples is padded as announced. *)
Example TemporalPadding_two_samples :
  let self := TemporalPadding.__init__ 1 1 "constant" (S754_zero false) in
  let one := of_Z 24 128 1 in
  let x := {| shape := [2; 2]; data := [one; one; one; one] |} in
  exists y, fst (@TemporalPadding.__call__ torch_float32 x self) = inr (VTensor y) /\
    shape y = [2; 4].
Proof. eexists. split; vm_compute; reflexivity. Qed.

End TransformsExamples.

(* ===================================================================== *)
(** * Properties of the dataset wrapper                                  *)
(* ===================================================================== *)

Section DatasetFacts.
Import Transforms Dataset.

Variable folds : list recording -> list (list string * list string).

Lemma by_person_transforms (d : dataset) (f : list string * list string) :
  let '(training, validating, testing) := by_person d f in
  _transforms training = _transforms d /\
  _transforms validating = _transforms d /\
  _transforms testing = _transforms d.
Proof. destruct f as [v t]. simpl. auto. Qed.

(** C6: a transform registered on a dataset is in the [_transforms] list of
    every training, validation and testing part that [loso()], [lmso()] or
    [split()] hands out (also of a part split again), and it is no longer
    registered once [clear_transforms()] has run. *)
Theorem transform_registration_survives (d : dataset) (tr : transform)
    (Hreg : tr ∈ _transforms d) :
  (forall training validating testing,
      (training, validating, testing) ∈ loso folds d ++ lmso folds d ->
      tr ∈ _transforms training /\ tr ∈ _transforms validating /\
      tr ∈ _transforms testing /\
      forall ts vs, let '(train, val, test) := split testing ts vs in
        tr ∈ _transforms train /\ tr ∈ _transforms val /\ tr ∈ _transforms test) /\
  (forall ts vs, let '(train, val, test) := split d ts vs in
      tr ∈ _transforms train /\ tr ∈ _transforms val /\ tr ∈ _transforms test) /\
  tr ∉ _transforms (clear_transforms d).
Proof.
  split; [|split].
  - intros training validating testing Hin.
    assert (exists f, (training, validating, testing) = by_person d f) as [f Hf].
    { apply elem_of_app in Hin as [Hin|Hin]; unfold loso, lmso in Hin;
        apply list_elem_of_fmap in Hin as (f & Hf & _); eauto. }
    pose proof (by_person_transforms d f) as Hbp. rewrite <- Hf in Hbp.
    destruct Hbp as (H1 & H2 & H3). rewrite H1, H2, H3.
    repeat split; auto; simpl; now rewrite H3.
  - intros ts vs. simpl. auto.
  - simpl. apply not_elem_of_nil.
Qed.

(** Registration itself: a transform is found on the dataset it was added to. *)
Lemma add_transform_registers (d : dataset) (tr : transform) :
  tr ∈ _transforms (add_transform tr d).
Proof. simpl. apply elem_of_app. right. apply list_elem_of_singleton. reflexivity. Qed.

End DatasetFacts.

Section DatasetExamples.
Import Transforms Dataset.

(** The set-up of the test suite: a [ZScore] transform added to a dataset of
    two persons with two sessions each. *)
Lemma transform_registration_survives_witness :
  let zscore := IsZScore ZScore.__init__ in
  let dummy :=
    {| recordings := [ {| person := "p1"; session := "sess1" |};
                       {| person := "p1"; session := "sess2" |};
                       {| person := "p2"; session := "sess1" |};
                       {| person := "p2"; session := "sess2" |} ]%string;
       _transforms := [] |} in
  let d := add_transform zscore dummy in
  let folds := fun _ : list recording =>
                 [([], ["p1"]); ([], ["p2"])]%string in
  zscore ∈ _transforms d /\
  length (loso folds d) = 2%nat /\
  (forall training validating testing,
      (training, validating, testing) ∈ loso folds d ++ lmso folds d ->
      zscore ∈ _transforms training /\ zscore ∈ _transforms validating /\
      zscore ∈ _transforms testing /\
      zscore ∈ _transforms (snd (split testing ["sess1"%string] []))) /\
  zscore ∉ _transforms (clear_transforms d).
Proof.
  intros zscore dummy d folds.
  assert (Hreg : zscore ∈ _transforms d) by apply add_transform_registers.
  destruct (transform_registration_survives folds d zscore Hreg)
    as (Hfolds & _ & Hclear).
  split; [exact Hreg|]. split; [reflexivity|]. split; [|exact Hclear].
  intros training validating testing Hin.
  destruct (Hfolds training validating testing Hin) as (H1 & H2 & H3 & Hsplit).
  specialize (Hsplit ["sess1"%string] []). simpl in Hsplit.
  split; [exact H1|]. split; [exact H2|]. split; [exact H3|]. apply Hsplit.
Defined.

End DatasetExamples.

(* ===================================================================== *)
(** * Properties of src/dn3/trainable/trainable.py: the training loop    *)
(* ===================================================================== *)

Section FitFacts.
Import Trainable.

Lemma quiet_ret {A} (a : A) : steps_no_optimizer (ret a).
Proof. intros tr. exists []. rewrite app_nil_r. split; [reflexivity|apply not_elem_of_nil]. Qed.

Lemma quiet_lift {A} (r : exn + A) : steps_no_optimizer (lift r).
Proof. intros tr. exists []. rewrite app_nil_r. split; [reflexivity|apply not_elem_of_nil]. Qed.

Lemma quiet_emit (e : event) : e <> OptimizerStep -> steps_no_optimizer (emit e).
Proof.
  intros He tr. exists [e]. split; [reflexivity|].
  intros Hin. apply list_elem_of_singleton in Hin. congruence.
Qed.

Lemma quiet_bind {A B} (c : M trace A) (k : A -> M trace B) :
  steps_no_optimizer c -> (forall a, steps_no_optimizer (k a)) ->
  steps_no_optimizer (bind c k).
Proof.
  intros Hc Hk tr. unfold bind. destruct (Hc tr) as (add1 & E1 & N1).
  destruct (c tr) as [[e|a] tr1]; simpl in E1; subst tr1.
  - exists add1. auto.
  - destruct (Hk a (tr ++ add1)) as (add2 & E2 & N2).
    exists (add1 ++ add2). rewrite E2, app_assoc. split; [reflexivity|].
    rewrite elem_of_app. tauto.
Qed.

Lemma quiet_for_acc {A B} (xs : list A) (body : B -> A -> M trace B) :
  (forall acc x, steps_no_optimizer (body acc x)) ->
  forall acc, steps_no_optimizer (for_acc xs acc body).
Proof.
  intros Hbody. induction xs as [|x xs IH]; intros acc; simpl.
  - apply quiet_ret.
  - apply quiet_bind; auto.
Qed.

Ltac quiet_tac :=
  repeat first
    [ apply quiet_ret
    | apply quiet_lift
    | apply quiet_emit; discriminate
    | apply quiet_bind; [|intros ?]
    | apply quiet_for_acc; intros ? ?
    | match goal with
      | |- steps_no_optimizer (if ?b then _ else _) => destruct b
      | |- steps_no_optimizer (match ?o with Some _ => _ | None => _ end) =>
          destruct o
      | |- steps_no_optimizer (let '(_, _) := ?p in _) => destruct p
      end ].

Variables batch output : Type.
Variable network : batch -> output.
Variable network_on_batch : batch -> exn + output.
Variable loss_value : batch -> output -> spec_float.
Variable calculate_metrics_of : batch -> output -> gmap string spec_float.
Variable has_scheduler : bool.
Variable lr : spec_float.

Abbreviation the_fit :=
  (StandardClassifier.fit batch output network network_on_batch loss_value
     calculate_metrics_of lr).
Abbreviation the_fit_epoch :=
  (StandardClassifier.fit_epoch batch output network network_on_batch loss_value
     calculate_metrics_of lr).
Abbreviation the_fit_batch :=
  (StandardClassifier.fit_batch batch output network loss_value
     calculate_metrics_of lr).
Abbreviation the_train_step :=
  (StandardClassifier.train_step batch output network loss_value
     calculate_metrics_of has_scheduler).

Lemma evaluate_quiet (dataset : list batch) :
  steps_no_optimizer
    (StandardClassifier.evaluate batch output network_on_batch
       calculate_metrics_of dataset).
Proof.
  unfold StandardClassifier.evaluate, BaseTrainable.evaluate,
    BaseTrainable.evaluate_batch, StandardClassifier.forward_on_batch,
    StandardClassifier.calculate_metrics, calling.
  quiet_tac.
Qed.

Lemma fit_quiet (training_dataset : list batch) (epochs : Z)
    (validation_dataset : option (list batch)) (step_callback epoch_callback : bool) :
  steps_no_optimizer
    (the_fit training_dataset epochs validation_dataset step_callback epoch_callback).
Proof.
  unfold StandardClassifier.fit, StandardClassifier.fit_epoch,
    StandardClassifier.fit_batch, BaseTrainable.standard_logging,
    BaseTrainable.backward, StandardClassifier.forward,
    StandardClassifier.calculate_loss, StandardClassifier.calculate_metrics,
    calling.
  quiet_tac; apply evaluate_quiet.
Qed.

(** A loop whose every iteration returns and adds the same calls to the
    trace adds them once per element. *)
Lemma for_acc_trace {A B} (body : B -> A -> M (list event) B) (seg : list event) :
  (forall acc x tr, exists acc', body acc x tr = (inr acc', tr ++ seg)) ->
  forall xs acc tr, exists acc',
    for_acc xs acc body tr = (inr acc', tr ++ concat (map (fun _ => seg) xs)).
Proof.
  intros Hbody. induction xs as [|x xs IH]; intros acc tr; simpl.
  - exists acc. now rewrite app_nil_r.
  - rewrite bind_run. destruct (Hbody acc x tr) as (acc1 & ->).
    destruct (IH acc1 (tr ++ seg)) as (acc' & ->).
    exists acc'. now rewrite app_assoc.
Qed.

Lemma map_const_enumerate {A C} (c : C) (k : Z) (xs : list A) :
  map (fun _ => c) (enumerate k xs) = map (fun _ => c) xs.
Proof.
  revert k. induction xs as [|x xs IH]; intros k; simpl; [reflexivity|].
  now rewrite IH.
Qed.

Lemma fit_batch_trace (cb : bool) (epoch iteration : Z) (b : batch)
    (log : list (gmap string number)) (tr : list event) :
  exists log',
    the_fit_batch cb epoch iteration b log tr = (inr log', tr ++ batch_calls cb).
Proof.
  eexists. unfold StandardClassifier.fit_batch, batch_calls,
    BaseTrainable.backward, StandardClassifier.forward,
    StandardClassifier.calculate_loss, StandardClassifier.calculate_metrics,
    calling, emit, modify, bind, ret.
  destruct cb; simpl; rewrite <- ?app_assoc; simpl; reflexivity.
Qed.

Lemma fit_trace (training_dataset : list batch) (epochs : Z) (cb ecb : bool)
    (tr : list event) :
  snd (the_fit training_dataset epochs None cb ecb tr)
  = tr ++ concat (map (fun _ => concat (map (fun _ => batch_calls cb)
                                            training_dataset))
                      (py_range 1 (epochs + 1))).
Proof.
  unfold StandardClassifier.fit.
  destruct (for_acc_trace
              (fun logs epoch =>
                 the_fit_epoch training_dataset None cb ecb epoch logs)
              (concat (map (fun _ => batch_calls cb) training_dataset)))
    with (xs := py_range 1 (epochs + 1))
         (acc := ([] : list (gmap string number), [] : list (gmap string number)))
         (tr := tr)
    as (acc' & ->); [|reflexivity].
  intros [tl vl] epoch tr0. unfold StandardClassifier.fit_epoch.
  rewrite bind_run.
  destruct (for_acc_trace
              (fun train_log '(iteration, b) =>
                 the_fit_batch cb epoch iteration b train_log)
              (batch_calls cb))
    with (xs := enumerate 1 training_dataset) (acc := tl) (tr := tr0)
    as (log' & Hrun).
  { intros acc [it b] tr1. apply fit_batch_trace. }
  simpl fst. rewrite Hrun. eexists. unfold ret.
  now rewrite map_const_enumerate.
Qed.

(** C1, on the code: whatever the data, the number of epochs, the validation
    set and the callbacks, [StandardClassifier.fit] never steps the
    optimizer.  Without a validation set the calls it makes are, epoch after
    epoch and batch after batch: fetch the batch, move it to the device,
    forward, loss, zero the gradients, backward, metrics, progress bar, log
    (and the step callback when there is one).  [train_step], which [fit]
    does not call, is where the optimizer is stepped, once. *)
Theorem fit_does_not_step_optimizer (training_dataset : list batch) (epochs : Z)
    (validation_dataset : option (list batch))
    (step_callback epoch_callback : bool) (b : batch) :
  (OptimizerStep ∉
     (snd (the_fit training_dataset epochs validation_dataset
             step_callback epoch_callback []))) /\
  snd (the_fit training_dataset epochs None step_callback epoch_callback []) =
    concat (map (fun _ => concat (map (fun _ => batch_calls step_callback)
                                      training_dataset))
                (py_range 1 (epochs + 1))) /\
  snd (the_fit [b] 1 None false false []) =
    [NextBatch; ToDevice; Forward; Loss; ZeroGrad; Backward; Metrics;
     Postfix; AppendTrainLog] /\
  snd (the_train_step b []) =
    [SetTrain true; Forward; Loss; ZeroGrad; Backward; OptimizerStep]
      ++ (if has_scheduler then [SchedulerStep] else []) ++ [Metrics].
Proof.
  split; [|split; [|split]].
  - destruct (fit_quiet training_dataset epochs validation_dataset
                step_callback epoch_callback []) as (added & E & N).
    now rewrite E.
  - apply fit_trace.
  - reflexivity.
  - destruct has_scheduler; reflexivity.
Qed.

End FitFacts.

(* ===================================================================== *)
(** * Properties of src/dn3/trainable/trainable.py: construction         *)
(* ===================================================================== *)

Section InitFacts.
Import Trainable.
Variable device_ok : string -> bool.
Variable move_fails : string -> option exn.

Lemma place_new_members_grown (before after : obj) :
  dom before ⊆ dom after ->
  BaseTrainable.place_new_members move_fails (dom before) after = (inr tt, after).
Proof.
  intros Hsub. unfold BaseTrainable.place_new_members, bind, get.
  assert (dom before ∖ dom after = (∅ : gset string)) as ->.
  { apply elem_of_equiv_empty_L. intros k [Hin Hout]%elem_of_difference. auto. }
  rewrite elements_empty. reflexivity.
Qed.

Lemma build_network_classifier (classifier : pyval) (self : obj) :
  StandardClassifier.build_network {["classifier" := classifier]} self =
    if is_None classifier then (inl AssertionError, self)
    else (inr tt, <["classifier" := classifier]> self).
Proof.
  unfold StandardClassifier.build_network.
  rewrite bool_decide_eq_true_2 by (rewrite dom_singleton_L; reflexivity).
  rewrite lookup_singleton_eq. simpl.
  destruct classifier; reflexivity.
Qed.

Lemma init_rejected build_network parameters optimizer scheduler cuda kw
    (self : obj) :
  cuda_accepted cuda = false ->
  BaseTrainable.__init__ device_ok move_fails build_network parameters
    optimizer scheduler cuda kw self
  = (inl AssertionError, <["cuda" := cuda]> self).
Proof.
  intros H. destruct cuda; try discriminate H; reflexivity.
Qed.

(** With an accepted [cuda] the constructor gets as far as the device, and
    with an accepted device as far as [build_network]. *)
Lemma init_accepted build_network parameters optimizer scheduler cuda kw
    (self : obj) :
  cuda_accepted cuda = true ->
  BaseTrainable.__init__ device_ok move_fails build_network parameters
    optimizer scheduler cuda kw self
  = if device_ok (device_name cuda) then
      let s3 := <["scheduler" := scheduler]>
                  (<["device" := PDevice (device_name cuda)]>
                     (<["cuda" := cuda]> self)) in
      (build_network kw ;;
       BaseTrainable.place_new_members move_fails (dom s3) ;;
       BaseTrainable.choose_optimizer parameters optimizer) s3
    else (inl (RuntimeError "Expected one of cpu, cuda, ... device type"),
          <["cuda" := cuda]> self).
Proof.
  intros H. destruct cuda; try discriminate H.
  all: unfold BaseTrainable.__init__, bind, setattr, modify, assert, lift, get,
         torch_device, ret; simpl;
       destruct (device_ok _); reflexivity.
Qed.

Lemma base_init_assertion optimizer scheduler cuda kw (self : obj) :
  fst (BaseTrainable.__init__ device_ok move_fails BaseTrainable.build_network
         BaseTrainable.parameters optimizer scheduler cuda kw self)
    = inl AssertionError <-> cuda_accepted cuda = false.
Proof.
  destruct (cuda_accepted cuda) eqn:Hc.
  - rewrite init_accepted by exact Hc.
    destruct (device_ok _); simpl; split; discriminate.
  - rewrite init_rejected by exact Hc. simpl. tauto.
Qed.

(** The assertion of [build_network] passes through the constructors. *)
Lemma classifier_none_assertion loss_fn cuda (self : obj) :
  cuda_accepted cuda = true -> device_ok (device_name cuda) = true ->
  fst (StandardClassifier.__init__ device_ok move_fails PNone loss_fn cuda self)
    = inl AssertionError.
Proof.
  intros Hc Hd. unfold StandardClassifier.__init__. rewrite bind_run.
  rewrite init_accepted by exact Hc. rewrite Hd. cbv zeta.
  rewrite bind_run, build_network_classifier. reflexivity.
Qed.

Lemma build_network_assertion (kw : kwargs) (self : obj) :
  (fst (StandardClassifier.build_network kw self) = inl AssertionError
   <-> dom kw ⊆ ({["classifier"]} : gset string) /\
       default PNone (kw !! "classifier") = PNone) /\
  (fst (StandardClassifier.build_network kw self) = inl AssertionError ->
   snd (StandardClassifier.build_network kw self) = self).
Proof.
  unfold StandardClassifier.build_network.
  case_bool_decide as Hdom.
  - destruct (default PNone (kw !! "classifier")); simpl;
      (split; [split; [try discriminate; auto|intros [_ ?]; try discriminate; auto]
              |try discriminate; auto]).
  - simpl. split; [|discriminate]. split; [discriminate|]. intros [? _]. contradiction.
Qed.

(** C7, as the code has it.  The check of [BaseTrainable.__init__] fails
    exactly when [cuda] is neither a [bool] nor a [str]; by then [self.cuda]
    has been assigned, and that assignment is all that has happened.  A plain
    [BaseTrainable] raises [AssertionError] from its constructor in that case
    only; but the constructor also lets through the assertion of the
    [build_network] it calls: constructing a [StandardClassifier] with no
    classifier raises [AssertionError] with an accepted [cuda] and device.
    [build_network] raises [AssertionError] exactly when it is given no
    classifier, and then leaves the object as it found it.  Nothing is caught
    or retried: the exception is the outcome. *)
Theorem wrapper_assertions (self : obj) :
  (forall build_network parameters optimizer scheduler cuda kw,
      cuda_accepted cuda = false ->
      BaseTrainable.__init__ device_ok move_fails build_network parameters
        optimizer scheduler cuda kw self
      = (inl AssertionError, <["cuda" := cuda]> self)) /\
  (forall optimizer scheduler cuda kw,
      fst (BaseTrainable.__init__ device_ok move_fails
             BaseTrainable.build_network BaseTrainable.parameters
             optimizer scheduler cuda kw self)
        = inl AssertionError
      <-> cuda_accepted cuda = false) /\
  (forall loss_fn cuda,
      cuda_accepted cuda = true -> device_ok (device_name cuda) = true ->
      fst (StandardClassifier.__init__ device_ok move_fails PNone loss_fn cuda
             self)
        = inl AssertionError) /\
  (forall kw,
      (fst (StandardClassifier.build_network kw self) = inl AssertionError
       <-> dom kw ⊆ ({["classifier"]} : gset string) /\
           default PNone (kw !! "classifier") = PNone) /\
      (fst (StandardClassifier.build_network kw self) = inl AssertionError ->
       snd (StandardClassifier.build_network kw self) = self)).
Proof.
  split; [|split; [|split]].
  - intros. now apply init_rejected.
  - intros. apply base_init_assertion.
  - intros. now apply classifier_none_assertion.
  - intros. apply build_network_assertion.
Qed.

End InitFacts.

Section InitExamples.
Import Trainable.

(** C7, as stated, fails twice.  Constructing [StandardClassifier(None)]
    runs [BaseTrainable.__init__] with [cuda=False], a [bool], and it still
    raises [AssertionError].  And with [cuda=3] the assertion is raised after
    [self.cuda = cuda] has run: the object, empty before, holds [cuda]
    afterwards. *)
Lemma init_assertion_counterexample :
  let device_ok := fun name : string =>
                     bool_decide (name = "cpu" \/ name = "cuda")%string in
  let move_fails := fun _ : string => @None exn in
  let init := fun cuda classifier =>
    BaseTrainable.__init__ device_ok move_fails StandardClassifier.build_network
      StandardClassifier.parameters PNone PNone cuda
      {["classifier"%string := classifier]} ∅ in
  (cuda_accepted (PBool false) = true /\
   fst (init (PBool false) PNone) = inl AssertionError) /\
  (cuda_accepted (PInt 3) = false /\
   fst (init (PInt 3) (PModule "net" true None)) = inl AssertionError /\
   snd (init (PInt 3) (PModule "net" true None)) !! "cuda"%string
     = Some (PInt 3) /\
   (∅ : obj) !! "cuda"%string = None).
Proof. repeat split; vm_compute; reflexivity. Qed.

End InitExamples.

(* ===================================================================== *)
(** * Properties of src/dn3/trainable/trainable.py: evaluation           *)
(* ===================================================================== *)

Section FloatOfInt.
Import Trainable.

Lemma digits2_pos_bounds (p : positive) :
  2 ^ (Z.pos (digits2_pos p) - 1) <= Z.pos p < 2 ^ Z.pos (digits2_pos p).
Proof.
  induction p as [p IH|p IH|]; cbn [digits2_pos].
  - rewrite Pos2Z.inj_succ.
    replace (Z.succ (Z.pos (digits2_pos p)) - 1) with (Z.pos (digits2_pos p)) by lia.
    rewrite Z.pow_succ_r by lia.
    replace (Z.pos (digits2_pos p)) with (Z.succ (Z.pos (digits2_pos p) - 1)) at 1 by lia.
    rewrite Z.pow_succ_r by lia. lia.
  - rewrite Pos2Z.inj_succ.
    replace (Z.succ (Z.pos (digits2_pos p)) - 1) with (Z.pos (digits2_pos p)) by lia.
    rewrite Z.pow_succ_r by lia.
    replace (Z.pos (digits2_pos p)) with (Z.succ (Z.pos (digits2_pos p) - 1)) at 1 by lia.
    rewrite Z.pow_succ_r by lia. lia.
  - simpl. lia.
Qed.

Lemma digits2_pos_shift (p n : positive) :
  digits2_pos (Pos.iter xO p n) = (digits2_pos p + n)%positive.
Proof.
  induction n as [|n IH] using Pos.peano_ind.
  - simpl. lia.
  - rewrite Pos.iter_succ. cbn [digits2_pos]. rewrite IH. lia.
Qed.

Lemma binary_round_aux_exact (s : bool) (m : positive) (e : Z) :
  Z.pos (digits2_pos m) = 53 -> -1074 <= e <= 971 ->
  binary_round_aux 53 1024 s (Z.pos m) e loc_Exact = S754_finite s m e.
Proof.
  intros Hd He. unfold binary_round_aux, shr_fexp, Zdigits2. rewrite Hd.
  assert (Hf : fexp 53 1024 (53 + e) - e = 0).
  { unfold fexp, emin. lia. }
  rewrite Hf. cbn [shr shr_record_of_loc shr_m loc_of_shr_record round_nearest_even].
  unfold Zdigits2. rewrite Hd, Hf. cbn [shr shr_record_of_loc shr_m].
  destruct (Z.leb_spec e (1024 - 53)) as [_|H]; [reflexivity|lia].
Qed.

Lemma float_of_int_small (k : Z) :
  0 < k < 2 ^ 53 ->
  exists m e, float_of_int k = inr (S754_finite false m e).
Proof.
  intros Hk. destruct k as [|p|p]; try lia.
  unfold float_of_int, binary_normalize, binary_round.
  pose proof (digits2_pos_bounds p) as Hb.
  set (d := Z.pos (digits2_pos p)) in *.
  assert (Hd : 1 <= d <= 53).
  { split; [unfold d; lia|].
    destruct (Z.le_gt_cases d 53) as [|Hgt]; [assumption|exfalso].
    assert (2 ^ 53 <= 2 ^ (d - 1)) by (apply Z.pow_le_mono_r; lia). lia. }
  assert (Hf : fexp 53 1024 (d + 0) = d - 53) by (unfold fexp, emin; lia).
  rewrite Hf. unfold shl_align.
  destruct (d - 53 - 0) as [|q|q] eqn:Hq; try lia.
  - rewrite binary_round_aux_exact by (fold d; lia). eauto.
  - rewrite binary_round_aux_exact.
    + eauto.
    + rewrite digits2_pos_shift, Pos2Z.inj_add. fold d. lia.
    + lia.
Qed.

Lemma running_update_returns (old new : spec_float) (iterations : Z) :
  1 <= iterations < 2 ^ 53 ->
  exists k1 k,
    float_of_int (iterations - 1) = inr k1 /\
    float_of_int iterations = inr k /\
    BaseTrainable.running_update old new iterations
    = inr (SFdiv 53 1024 (SFadd 53 1024 (SFmul 53 1024 old k1) new) k).
Proof.
  intros Hk.
  destruct (float_of_int_small iterations) as (m & e & Hfk); [lia|].
  assert (Hk1 : exists k1, float_of_int (iterations - 1) = inr k1).
  { destruct (Z.eq_dec iterations 1) as [->|Hne].
    - eexists. reflexivity.
    - destruct (float_of_int_small (iterations - 1)) as (m1 & e1 & H1); [lia|].
      eauto. }
  destruct Hk1 as (k1 & Hk1).
  exists k1, (S754_finite false m e). split; [exact Hk1|]. split; [exact Hfk|].
  unfold BaseTrainable.running_update, float_mul_int, float_div_int.
  rewrite Hk1, Hfk. reflexivity.
Qed.

End FloatOfInt.

Section EvaluateFacts.
Import Trainable.




Lemma update_each_spec (iterations : Z) (items : list (string * spec_float)) :
  1 <= iterations < 2 ^ 53 ->
  forall metrics : gmap string spec_float,
  NoDup (items.*1) ->
  (forall m v, (m, v) ∈ items -> is_Some (metrics !! m)) ->
  exists metrics',
    BaseTrainable.update_each iterations items metrics = inr metrics' /\
    dom metrics' = dom metrics /\
    (forall m v, (m, v) ∈ items ->
       exists old average,
         metrics !! m = Some old /\
         BaseTrainable.running_update old v iterations = inr average /\
         metrics' !! m = Some average) /\
    (forall m, m ∉ items.*1 -> metrics' !! m = metrics !! m).
Proof.
  intros Hit.
  induction items as [|[m v] items IH]; intros metrics Hnd Hin.
  - exists metrics. repeat split; auto. intros m v H. inversion H.
  - simpl. apply NoDup_cons in Hnd as [Hm Hnd].
    destruct (Hin m v) as [old Hold]; [left|]. rewrite Hold.
    destruct (running_update_returns old v iterations Hit)
      as (k1 & k & _ & _ & Hrun).
    rewrite Hrun. set (average := SFdiv _ _ _ _) in *.
    set (metrics1 := <[m := average]> metrics).
    destruct (IH metrics1 Hnd) as (metrics' & Hrun' & Hdom & Hupd & Hkeep).
    { intros m' v' H'. unfold metrics1.
      destruct (decide (m = m')) as [->|Hne].
      - rewrite lookup_insert_eq. eauto.
      - rewrite lookup_insert_ne by exact Hne. apply (Hin m' v'). now right. }
    exists metrics'. split; [exact Hrun'|]. split.
    { rewrite Hdom. unfold metrics1. rewrite dom_insert_L.
      assert (m ∈ dom metrics) by (apply elem_of_dom; eauto).
      apply set_eq. intros k0. rewrite elem_of_union, elem_of_singleton.
      split; [intros [->|]; auto|auto]. }
    split.
    + intros m' v' H'. apply elem_of_cons in H' as [[= -> ->]|H'].
      * exists old, average. split; [exact Hold|]. split; [exact Hrun|].
        rewrite Hkeep by exact Hm. unfold metrics1. apply lookup_insert_eq.
      * assert (m <> m').
        { intros ->. apply Hm. apply list_elem_of_fmap. exists (m', v'). auto. }
        destruct (Hupd m' v' H') as (old' & average' & Hold' & Hav' & Hnew).
        unfold metrics1 in Hold'. rewrite lookup_insert_ne in Hold' by assumption.
        eauto.
    + intros m' Hm'. simpl in Hm'. apply not_elem_of_cons in Hm' as [Hne Hm'].
      rewrite Hkeep by exact Hm'. unfold metrics1.
      now rewrite lookup_insert_ne by congruence.
Qed.


Variables batch output : Type.
Variable network : batch -> output.
Variable calculate_metrics_of : batch -> output -> gmap string spec_float.
Variable keys : gset string.




Lemma Q_of_float_inj (x : spec_float) (q q' : Q) :
  Q_of_float x = Some q -> Q_of_float x = Some q' -> q = q'.
Proof. congruence. Qed.



End EvaluateFacts.

Section EvaluateExamples.
Import Trainable.




End EvaluateExamples.

(* ===================================================================== *)
(** * More of src/layers.py: SqueezeLayer                                *)
(* ===================================================================== *)

Section SqueezeFacts.
Import Layers.

Lemma py_position_Some (len : nat) (i : Z) (k : nat) :
  py_position len i = Some k <->
  (0 <= i < Z.of_nat len /\ k = Z.to_nat i) \/
  (- Z.of_nat len <= i < 0 /\ k = Z.to_nat (i + Z.of_nat len)).
Proof.
  unfold py_position.
  destruct (Z.leb_spec (- Z.of_nat len) i), (Z.ltb_spec i (Z.of_nat len)),
    (Z.ltb_spec i 0); simpl; split;
    try (intros [= <-]); try (intros [[? ->]|[? ->]]); try lia; auto;
    try discriminate; try (intros [[? ?]|[? ?]]; lia).
Qed.

Lemma py_position_None (len : nat) (i : Z) :
  py_position len i = None <-> i < - Z.of_nat len \/ Z.of_nat len <= i.
Proof.
  unfold py_position.
  destruct (Z.leb_spec (- Z.of_nat len) i), (Z.ltb_spec i (Z.of_nat len));
    simpl; split; try discriminate; try lia; auto.
Qed.

Lemma py_position_lt (len : nat) (i : Z) (k : nat) :
  py_position len i = Some k -> (k < len)%nat.
Proof. intros H. apply py_position_Some in H. lia. Qed.

Lemma squeeze_at (self : ExpandLayer.t) (sh : list Z) (k : nat) :
  py_position (length sh)
    (if ExpandLayer.axis self <? 0
     then Z.of_nat (length sh) + ExpandLayer.axis self
     else ExpandLayer.axis self) = Some k ->
  SqueezeLayer.compute_output_signature self sh =
    match sh !! k with
    | Some 1 => SqueezeLayer.Returns (take k sh ++ drop (S k) sh)
    | _ => SqueezeLayer.RaisesValueError
             (if ExpandLayer.axis self <? 0
              then Z.of_nat (length sh) + ExpandLayer.axis self
              else ExpandLayer.axis self)
    end.
Proof.
  intros Hpos. unfold SqueezeLayer.compute_output_signature, py_getitem, py_pop.
  rewrite Hpos. pose proof (py_position_lt _ _ _ Hpos) as Hlt.
  destruct (lookup_lt_is_Some_2 sh k Hlt) as [n ->].
  destruct (Z.eqb_spec n 1) as [->|Hne]; [reflexivity|].
  destruct n as [|[]|]; try reflexivity. contradiction.
Qed.

(** X1: how [SqueezeLayer.compute_output_signature] ends, against [call].
    It raises [IndexError] exactly when the axis is at or beyond the rank, or
    below minus twice the rank (an axis in between that is too negative for
    [tf.squeeze] is shifted once and then read from the end).  For an axis
    [tf.squeeze] accepts, it returns a signature exactly when [call] returns
    a tensor, of that very shape, and raises its [ValueError] exactly when
    [tf.squeeze] raises. *)
Theorem squeeze_signature_outcome (self : ExpandLayer.t) (sh : list Z) :
  (SqueezeLayer.compute_output_signature self sh = SqueezeLayer.RaisesIndexError
   <-> Z.of_nat (length sh) <= ExpandLayer.axis self \/
       ExpandLayer.axis self < - (2 * Z.of_nat (length sh))) /\
  (- Z.of_nat (length sh) <= ExpandLayer.axis self < Z.of_nat (length sh) ->
   (forall rest, SqueezeLayer.compute_output_signature self sh
                   = SqueezeLayer.Returns rest
                 <-> SqueezeLayer.call self sh = inr rest) /\
   ((exists ax, SqueezeLayer.compute_output_signature self sh
                  = SqueezeLayer.RaisesValueError ax)
    <-> exists e, SqueezeLayer.call self sh = inl e)).
Proof.
  set (ax := if ExpandLayer.axis self <? 0
             then Z.of_nat (length sh) + ExpandLayer.axis self
             else ExpandLayer.axis self).
  split.
  - destruct (py_position (length sh) ax) as [k|] eqn:Hpos.
    + rewrite (squeeze_at self sh k Hpos).
      apply py_position_Some in Hpos. unfold ax in Hpos.
      split.
      * destruct (sh !! k) as [[|[]|]|]; discriminate.
      * destruct (Z.ltb_spec (ExpandLayer.axis self) 0); lia.
    + unfold SqueezeLayer.compute_output_signature, py_getitem. fold ax.
      rewrite Hpos. apply py_position_None in Hpos. unfold ax in Hpos.
      split; [intros _|reflexivity].
      destruct (Z.ltb_spec (ExpandLayer.axis self) 0); lia.
  - intros Hax.
    assert (Hpos : py_position (length sh) ax
                   = Some (Z.to_nat (if ExpandLayer.axis self <? 0
                                     then ExpandLayer.axis self + Z.of_nat (length sh)
                                     else ExpandLayer.axis self))).
    { apply py_position_Some. unfold ax.
      destruct (Z.ltb_spec (ExpandLayer.axis self) 0); left; split; lia. }
    rewrite (squeeze_at self sh _ Hpos).
    unfold SqueezeLayer.call, squeeze_shape.
    replace ((- Z.of_nat (length sh) <=? ExpandLayer.axis self)
             && (ExpandLayer.axis self <? Z.of_nat (length sh))) with true
      by (symmetry; apply andb_true_iff; split; [apply Z.leb_le|apply Z.ltb_lt]; lia).
    set (k := Z.to_nat _).
    destruct (sh !! k) as [[|[]|]|]; split; split;
      try (intros [= <-]; reflexivity); try discriminate;
      try (intros [? [=]]); try (intros _; eexists; reflexivity);
      eexists; reflexivity.
Qed.

Lemma pop_inserted (l : list Z) (p : nat) (rest : list Z) (ax : Z) :
  (p <= length l)%nat ->
  match (take p l ++ 1 :: rest) !! p with
  | Some 1 => SqueezeLayer.Returns
                (take p (take p l ++ 1 :: rest) ++ drop (S p) (take p l ++ 1 :: rest))
  | _ => SqueezeLayer.RaisesValueError ax
  end = SqueezeLayer.Returns (take p l ++ rest).
Proof.
  intros Hp.
  assert (Hlen : length (take p l) = p) by (rewrite length_take; lia).
  rewrite lookup_app_r by lia. rewrite Hlen, Nat.sub_diag. simpl.
  rewrite take_app_length' by (symmetry; exact Hlen).
  rewrite drop_app_ge by lia. rewrite Hlen.
  replace (S p - p)%nat with 1%nat by lia. reflexivity.
Qed.

(** X2: squeezing the signature [ExpandLayer] computed, with the same axis,
    for an axis [tf.expand_dims] accepts on the input (from minus rank minus
    1 up to the rank).  For a negative such axis, for the axis equal to the
    rank, and where the input dimension at the axis is 1, the input signature
    comes back; for every other such axis the inserted 1 sits one place
    further than the squeeze looks, and the squeeze raises its [ValueError]. *)
Theorem expand_then_squeeze (self : ExpandLayer.t) (sh : list Z) :
  - (Z.of_nat (length sh) + 1) <= ExpandLayer.axis self <= Z.of_nat (length sh) ->
  SqueezeLayer.compute_output_signature self
    (ExpandLayer.compute_output_signature self sh)
  = if (ExpandLayer.axis self <? 0)
       || (ExpandLayer.axis self =? Z.of_nat (length sh))
       || bool_decide (sh !! Z.to_nat (ExpandLayer.axis self) = Some 1)
    then SqueezeLayer.Returns sh
    else SqueezeLayer.RaisesValueError (ExpandLayer.axis self).
Proof.
  intros Hax.
  set (d := Z.of_nat (length sh)) in *.
  set (p := Z.to_nat (if ExpandLayer.axis self <? 0
                      then d + ExpandLayer.axis self + 1
                      else Z.min (ExpandLayer.axis self + 1) d)).
  assert (Hexp : ExpandLayer.compute_output_signature self sh
                 = take p sh ++ 1 :: drop p sh).
  { unfold ExpandLayer.compute_output_signature, py_insert, p. fold d.
    destruct (Z.ltb_spec (ExpandLayer.axis self) 0).
    - destruct (Z.ltb_spec (d + ExpandLayer.axis self + 1) 0); [lia|].
      now rewrite Z.min_l by lia.
    - destruct (Z.ltb_spec (ExpandLayer.axis self + 1) 0); [lia|]. reflexivity. }
  assert (Hp : (p <= length sh)%nat).
  { unfold p. destruct (Z.ltb_spec (ExpandLayer.axis self) 0); lia. }
  assert (Hlen : length (take p sh ++ 1 :: drop p sh) = S (length sh)).
  { rewrite length_app, length_take. simpl. rewrite length_drop. lia. }
  rewrite Hexp.
  set (k := Z.to_nat (if ExpandLayer.axis self <? 0
                      then d + 1 + ExpandLayer.axis self
                      else ExpandLayer.axis self)).
  assert (Hpos : py_position (length (take p sh ++ 1 :: drop p sh))
                   (if ExpandLayer.axis self <? 0
                    then Z.of_nat (length (take p sh ++ 1 :: drop p sh))
                         + ExpandLayer.axis self
                    else ExpandLayer.axis self) = Some k).
  { apply py_position_Some. rewrite Hlen. unfold k.
    destruct (Z.ltb_spec (ExpandLayer.axis self) 0); left; split; lia. }
  rewrite (squeeze_at self _ k Hpos).
  destruct (Z.ltb_spec (ExpandLayer.axis self) 0) as [Hneg|Hpos'].
  - simpl orb. cbv iota.
    assert (k = p) as -> by (unfold k, p; destruct (Z.ltb_spec (ExpandLayer.axis self) 0); lia).
    rewrite pop_inserted by exact Hp. now rewrite take_drop.
  - destruct (Z.eqb_spec (ExpandLayer.axis self) d) as [Heq|Hne].
    + simpl orb. cbv iota.
      assert (k = p) as -> by (unfold k, p; destruct (Z.ltb_spec (ExpandLayer.axis self) 0); lia).
      rewrite pop_inserted by exact Hp. now rewrite take_drop.
    + simpl orb.
      assert (p = S k) as -> by (unfold k, p; destruct (Z.ltb_spec (ExpandLayer.axis self) 0); lia).
      assert (Hk : (k < length sh)%nat) by lia.
      destruct (lookup_lt_is_Some_2 sh k Hk) as [n Hn].
      rewrite lookup_app_l by (rewrite length_take; lia).
      rewrite lookup_take_lt by lia.
      replace (Z.to_nat (ExpandLayer.axis self)) with k
        by (unfold k; destruct (Z.ltb_spec (ExpandLayer.axis self) 0); lia).
      rewrite Hn.
      case_bool_decide as H1.
      * injection H1 as ->. f_equal.
        assert (Hl : length (take (S k) sh) = S k) by (rewrite length_take; lia).
        rewrite take_app_le by lia. rewrite take_take, Nat.min_l by lia.
        rewrite drop_app_length' by (symmetry; exact Hl).
        rewrite <- (take_drop k sh) at 3. now rewrite (drop_S sh 1 k Hn).
      * destruct n as [|[]|]; try reflexivity. contradiction.
Qed.

End SqueezeFacts.

Section SqueezeExamples.
Import Layers.

(** With axis 0 the round trip fails on a (2, 3) signature: the expansion
    gives (2, 1, 3) and the squeeze finds a 2 at axis 0. *)
Lemma expand_then_squeeze_witness :
  SqueezeLayer.compute_output_signature (ExpandLayer.__init__ 0)
    (ExpandLayer.compute_output_signature (ExpandLayer.__init__ 0) [2; 3])
  = SqueezeLayer.RaisesValueError 0.
Proof.
  rewrite (expand_then_squeeze (ExpandLayer.__init__ 0) [2; 3]) by (simpl; lia).
  reflexivity.
Defined.

End SqueezeExamples.

(* ===================================================================== *)
(** * More of src/layers.py: AttentionLSTMIn                             *)
(* ===================================================================== *)

Section AttentionFacts.
Import Layers.

Lemma py_range_lookup (lo hi : Z) (k : nat) :
  (k < Z.to_nat (hi - lo))%nat -> py_range lo hi !! k = Some (lo + Z.of_nat k).
Proof.
  intros Hk. unfold py_range. rewrite list_lookup_fmap.
  rewrite lookup_seq_lt by exact Hk. reflexivity.
Qed.

Lemma map_const_repeat {A B} (v : B) (l : list A) :
  map (fun _ => v) l = repeat v (length l).
Proof. induction l as [|a l IH]; simpl; [reflexivity|now rewrite IH]. Qed.

Lemma py_getitem_nat {A} (l : list A) (k : nat) :
  (k < length l)%nat -> py_getitem l (Z.of_nat k) = l !! k.
Proof.
  intros Hk. unfold py_getitem, py_position.
  destruct (Z.leb_spec (- Z.of_nat (length l)) (Z.of_nat k)); [|lia].
  destruct (Z.ltb_spec (Z.of_nat k) (Z.of_nat (length l))); [|lia].
  destruct (Z.ltb_spec (Z.of_nat k) 0); [lia|]. simpl.
  now rewrite Nat2Z.id.
Qed.

Lemma py_getitem_last {A} (l : list A) :
  l <> [] -> py_getitem l (-1) = last l.
Proof.
  intros Hl. unfold py_getitem, py_position.
  assert (0 < length l)%nat by (destruct l; [contradiction|simpl; lia]).
  destruct (Z.leb_spec (- Z.of_nat (length l)) (-1)); [|lia].
  destruct (Z.ltb_spec (-1) (Z.of_nat (length l))); [|lia]. simpl.
  rewrite last_lookup. f_equal. lia.
Qed.

(** X3: what a constructed [AttentionLSTMIn] holds.  [alignment_depth] is
    always the length of [alignment_units]; [implementation] is at least 1 (a
    value that is not positive is replaced by 2); [units] is the argument;
    and [alignment_units] is the given sequence, or [max(0, alignment_depth)]
    copies of the given number, or of [units] when that number is [None] or
    0. *)
Theorem AttentionLSTMIn_init_invariant (kwargs : Type)
    (LSTM__init__ : Z -> Z -> kwargs -> option exn) (u d : Z) (st : pystr)
    (au : AttentionLSTMIn.alignment_units_arg) (impl : Z) (kw : kwargs)
    (self : AttentionLSTMIn.t) :
  AttentionLSTMIn.__init__ LSTM__init__ u d st au impl kw = inr self ->
  AttentionLSTMIn.alignment_depth self
    = Z.of_nat (length (AttentionLSTMIn.alignment_units self)) /\
  1 <= AttentionLSTMIn.implementation self /\
  AttentionLSTMIn.units self = u /\
  AttentionLSTMIn.alignment_units self =
    match au with
    | AttentionLSTMIn.AU_Seq l => l
    | AttentionLSTMIn.AU_Int m => repeat (if m =? 0 then u else m) (Z.to_nat d)
    | AttentionLSTMIn.AU_None => repeat u (Z.to_nat d)
    end.
Proof.
  unfold AttentionLSTMIn.__init__.
  assert (Hlen : forall v : Z,
             length (map (fun _ : Z => v) (py_range 0 (Z.max 0 d))) = Z.to_nat d).
  { intros v. rewrite length_map, py_range_length. lia. }
  assert (Hrep : forall v : Z,
             map (fun _ : Z => v) (py_range 0 (Z.max 0 d)) = repeat v (Z.to_nat d)).
  { intros v. rewrite map_const_repeat, py_range_length. f_equal. lia. }
  destruct au as [|m|l]; simpl; (case_bool_decide; [|discriminate]);
    (destruct (LSTM__init__ _ _ _); [discriminate|]);
    intros [= <-]; simpl.
  - rewrite Hrep, repeat_length.
    repeat split; try lia. destruct (Z.gtb_spec impl 0); lia.
  - rewrite Hrep, repeat_length.
    repeat split; try lia; [destruct (Z.gtb_spec impl 0); lia|].
    destruct (Z.eqb_spec m 0); reflexivity.
  - repeat split. destruct (Z.gtb_spec impl 0); lia.
Qed.

(** X4: the weights [AttentionLSTMIn.build] asks for.  The layer attends
    locally exactly when its [style] is the very object the literal ['local']
    denotes: the test is by identity, so ['global'], and also a string that
    spells [local] but was built at run time, attend globally.  The assertion
    fails exactly for an input shape of rank 2 or less.  Otherwise [samples]
    and [channels] are dimensions 1 and 2 of the input shape; there is one
    attention kernel more than there are alignment units; consecutive kernels
    chain (each one's output width is the next one's input width); the first
    takes [units] plus the last input dimension (local) or plus [samples]
    (global) and the last yields [channels] (local) or [samples] (global);
    and the biases, when used, are the kernels' output widths. *)
Theorem AttentionLSTMIn_build_kernels (self : AttentionLSTMIn.t)
    (use_bias : bool) (input_shape : list Z) :
  (AttentionLSTMIn.style_is_first self = true
   <-> interned (AttentionLSTMIn.style self) = true /\
       chars (AttentionLSTMIn.style self) = "local"%string) /\
  (AttentionLSTMIn.build self use_bias input_shape
     = inl AssertionError <-> (length input_shape <= 2)%nat) /\
  forall r,
    AttentionLSTMIn.build self use_bias input_shape = inr r ->
    input_shape !! 1%nat = Some (AttentionLSTMIn.samples r) /\
    input_shape !! 2%nat = Some (AttentionLSTMIn.channels r) /\
    length (AttentionLSTMIn.attention_kernels r)
      = S (length (AttentionLSTMIn.alignment_units self)) /\
    (forall (i : nat) a b c e,
        AttentionLSTMIn.attention_kernels r !! i = Some (a, b) ->
        AttentionLSTMIn.attention_kernels r !! S i = Some (c, e) -> b = c) /\
    (exists b, head (AttentionLSTMIn.attention_kernels r)
      = Some (AttentionLSTMIn.units self
              + (if AttentionLSTMIn.style_is_first self then default 0 (last input_shape)
                 else AttentionLSTMIn.samples r), b)) /\
    (exists a, last (AttentionLSTMIn.attention_kernels r)
      = Some (a, if AttentionLSTMIn.style_is_first self then AttentionLSTMIn.channels r
                 else AttentionLSTMIn.samples r)) /\
    AttentionLSTMIn.attention_bias r
      = if use_bias then Some (map snd (AttentionLSTMIn.attention_kernels r))
        else None.
Proof.
  split.
  { unfold AttentionLSTMIn.style_is_first, is_literal. simpl.
    rewrite andb_true_iff, bool_decide_eq_true. tauto. }
  unfold AttentionLSTMIn.build.
  destruct (Nat.leb_spec (length input_shape) 2) as [Hle|Hgt].
  { split; [tauto|]. intros r [=]. }
  split; [split; [discriminate|lia]|].
  intros r [= <-]. cbn [AttentionLSTMIn.samples AttentionLSTMIn.channels
                        AttentionLSTMIn.attention_kernels
                        AttentionLSTMIn.attention_bias].
  assert (Hd1 : input_shape !! 1%nat = Some (default 0 (py_getitem input_shape 1))).
  { change 1 with (Z.of_nat 1). rewrite (py_getitem_nat input_shape 1) by lia.
    destruct (lookup_lt_is_Some_2 input_shape 1) as [x ->]; [lia|reflexivity]. }
  assert (Hd2 : input_shape !! 2%nat = Some (default 0 (py_getitem input_shape 2))).
  { change 2 with (Z.of_nat 2). rewrite (py_getitem_nat input_shape 2) by lia.
    destruct (lookup_lt_is_Some_2 input_shape 2) as [x ->]; [lia|reflexivity]. }
  assert (Hdl : py_getitem input_shape (-1) = last input_shape).
  { apply py_getitem_last. intros ->. simpl in Hgt. lia. }
  set (ul := AttentionLSTMIn.build_units self input_shape).
  set (n := length (AttentionLSTMIn.alignment_units self)).
  assert (Hul : exists h t,
             ul = [h] ++ AttentionLSTMIn.alignment_units self ++ [t] /\
             h = AttentionLSTMIn.units self
                 + (if AttentionLSTMIn.style_is_first self then default 0 (last input_shape)
                    else default 0 (py_getitem input_shape 1)) /\
             t = if AttentionLSTMIn.style_is_first self then default 0 (py_getitem input_shape 2)
                 else default 0 (py_getitem input_shape 1)).
  { unfold ul, AttentionLSTMIn.build_units. rewrite Hdl.
    destruct (AttentionLSTMIn.style_is_first self); eexists _, _; repeat split. }
  destruct Hul as (h & t & Hul & Hh & Ht).
  assert (Hlen : length ul = S (S n)).
  { rewrite Hul, !length_app. simpl. unfold n. lia. }
  set (at_ := fun i : Z => default 0 (py_getitem ul i)).
  assert (Hat : forall k : nat, (k < S (S n))%nat ->
             ul !! k = Some (at_ (Z.of_nat k))).
  { intros k Hk. unfold at_. rewrite py_getitem_nat by lia.
    destruct (lookup_lt_is_Some_2 ul k) as [x ->]; [lia|reflexivity]. }
  assert (Hker : forall k : nat, (k < S n)%nat ->
             map (fun i : Z => (at_ (i - 1), at_ i))
                 (py_range 1 (Z.of_nat (length ul))) !! k
             = Some (at_ (Z.of_nat k), at_ (Z.of_nat (S k)))).
  { intros k Hk. rewrite list_lookup_fmap, py_range_lookup by lia. simpl.
    repeat f_equal; lia. }
  assert (Hklen : length (map (fun i : Z => (at_ (i - 1), at_ i))
                              (py_range 1 (Z.of_nat (length ul)))) = S n).
  { rewrite length_map, py_range_length. lia. }
  set (kernels := map _ _) in *.
  split; [exact Hd1|]. split; [exact Hd2|]. split; [exact Hklen|].
  split; [|split; [|split]].
  - intros i a b c e Hi HSi.
    pose proof (lookup_lt_Some _ _ _ HSi) as Hlt. rewrite Hklen in Hlt.
    rewrite Hker in Hi, HSi by lia. congruence.
  - rewrite head_lookup, Hker by lia.
    exists (at_ (Z.of_nat 1)). f_equal. f_equal.
    pose proof (Hat 0%nat ltac:(lia)) as H0. rewrite Hul in H0. simpl in H0.
    rewrite <- Hh. apply (f_equal (default 0)) in H0. symmetry. exact H0.
  - rewrite last_lookup, Hklen. simpl. rewrite Hker by lia.
    exists (at_ (Z.of_nat n)). f_equal. f_equal.
    pose proof (Hat (S n) ltac:(lia)) as H0. rewrite Hul in H0.
    change ([h] ++ AttentionLSTMIn.alignment_units self ++ [t])
      with (h :: (AttentionLSTMIn.alignment_units self ++ [t])) in H0.
    rewrite lookup_cons in H0.
    rewrite (list_lookup_middle _ [] t n) in H0 by reflexivity.
    rewrite <- Ht. apply (f_equal (default 0)) in H0. symmetry. exact H0.
  - destruct use_bias; [|reflexivity]. f_equal.
    apply list_eq. intros k. rewrite lookup_drop, list_lookup_fmap.
    destruct (Nat.lt_ge_cases k (S n)) as [Hk|Hk].
    + rewrite Hker by exact Hk. simpl. now rewrite Hat by lia.
    + rewrite (lookup_ge_None_2 kernels) by lia.
      rewrite lookup_ge_None_2 by lia. reflexivity.
Qed.

End AttentionFacts.

Section AttentionExamples.
Import Layers.

(** [AttentionLSTMIn(8, alignment_depth=2, implementation=0)] *)
Lemma AttentionLSTMIn_init_invariant_witness :
  let self := {| AttentionLSTMIn.units := 8;
                 AttentionLSTMIn.implementation := 2;
                 AttentionLSTMIn.alignment_units := [8; 8];
                 AttentionLSTMIn.alignment_depth := 2;
                 AttentionLSTMIn.style := literal "local" |} in
  AttentionLSTMIn.alignment_depth self
    = Z.of_nat (length (AttentionLSTMIn.alignment_units self)) /\
  1 <= AttentionLSTMIn.implementation self /\
  AttentionLSTMIn.units self = 8 /\
  AttentionLSTMIn.alignment_units self = repeat 8 (Z.to_nat 2).
Proof.
  intros self.
  apply (AttentionLSTMIn_init_invariant (list string) (fun _ _ _ => None)
           8 2 (literal "local") AttentionLSTMIn.AU_None 0 [] self).
  vm_compute. reflexivity.
Defined.

(** The test of [build] is by identity.  A layer of 8 units with one
    alignment layer of 8, on an input of 10 samples and 4 channels: with the
    literal ['local'] for style it gets the local kernels; with a string that
    spells [local] but was built at run time it gets the global ones, as it
    does with ['global']. *)
Example AttentionLSTMIn_build_by_identity :
  let layer := fun style =>
    {| AttentionLSTMIn.units := 8;
       AttentionLSTMIn.implementation := 2;
       AttentionLSTMIn.alignment_units := [8];
       AttentionLSTMIn.alignment_depth := 1;
       AttentionLSTMIn.style := style |} in
  let kernels := fun style =>
    match AttentionLSTMIn.build (layer style) true [32; 10; 4] with
    | inr r => Some (AttentionLSTMIn.attention_kernels r)
    | inl _ => None
    end in
  kernels (literal "local") = Some [(12, 8); (8, 4)] /\
  kernels {| chars := "local"; interned := false |} = Some [(18, 8); (8, 10)] /\
  kernels (literal "global") = Some [(18, 8); (8, 10)].
Proof. repeat split; vm_compute; reflexivity. Qed.

End AttentionExamples.

(* ===================================================================== *)
(** * More of src/layers.py: the dense and transition blocks             *)
(* ===================================================================== *)

Section DenseFacts.
Import Layers.

Lemma dense_layer_1d_shape (x : kshape) (growth_rate bn_size : Z) (fmt : data_format) :
  0 < growth_rate -> 0 < bn_size ->
  dense_layer_1d x growth_rate bn_size fmt =
    Some (match fmt with
          | channels_first => (growth_rate, snd x)
          | channels_last => (fst x, growth_rate)
          end).
Proof.
  intros Hg Hb. unfold dense_layer_1d, BatchNormalization, activation,
    SpatialDropout1D, Conv1D. simpl.
  destruct (Z.leb_spec (bn_size * growth_rate) 0) as [|_]; [nia|].
  destruct fmt; simpl; destruct (Z.leb_spec growth_rate 0); try lia; reflexivity.
Qed.

Lemma dense_block_loop_shape (layers : nat) (x : kshape) (bn_size growth_rate : Z)
    (fmt : data_format) :
  0 < growth_rate -> 0 < bn_size ->
  dense_block_loop layers x bn_size growth_rate fmt =
    Some (match fmt with
          | channels_first => (fst x + Z.of_nat layers * growth_rate, snd x)
          | channels_last => (fst x, snd x + Z.of_nat layers * growth_rate)
          end).
Proof.
  intros Hg Hb. revert x. induction layers as [|n IH]; intros [a b].
  - simpl. destruct fmt; do 2 f_equal; lia.
  - cbn [dense_block_loop]. rewrite dense_layer_1d_shape by assumption.
    destruct fmt; simpl; unfold Concatenate; simpl.
    + rewrite Z.eqb_refl. simpl. rewrite IH. simpl. do 2 f_equal. lia.
    + rewrite Z.eqb_refl. simpl. rewrite IH. simpl. do 2 f_equal. lia.
Qed.

(** X5: with a positive growth rate and bottleneck size [dense_block_1d]
    builds: every layer adds [growth_rate] channels, so the block returns a
    tensor with [num_layers * growth_rate] more channels than it was given
    (none for a [num_layers] that is not positive) and of the same length. *)
Theorem dense_block_1d_grows_channels (x : kshape)
    (num_layers bn_size growth_rate : Z) (fmt : data_format) :
  0 < growth_rate -> 0 < bn_size ->
  exists y, dense_block_1d x num_layers bn_size growth_rate fmt = Some y /\
    channels_of fmt y = channels_of fmt x + Z.max 0 num_layers * growth_rate /\
    length_of fmt y = length_of fmt x.
Proof.
  intros Hg Hb. unfold dense_block_1d.
  rewrite dense_block_loop_shape by assumption.
  eexists. split; [reflexivity|].
  destruct fmt; simpl; split; try reflexivity; f_equal; lia.
Qed.

(** X6: a [transition] after a dense block.  With channels last it leaves
    [num_output_features] channels and divides the length by [pool] (rounding
    down), and is refused when the length is below [pool].  With channels
    first, the default of the function, the pooling layer still takes the
    first dimension after the batch for the steps: it is the channels that
    are pooled, down to [num_output_features / pool], and the length stays. *)
Theorem dense_block_then_transition (x y : kshape)
    (num_layers bn_size growth_rate num_output_features pool : Z)
    (fmt : data_format) :
  0 < growth_rate -> 0 < bn_size -> 0 < num_output_features -> 0 < pool ->
  dense_block_1d x num_layers bn_size growth_rate fmt = Some y ->
  transition y num_output_features pool fmt =
    match fmt with
    | channels_last =>
        if length_of fmt x <? pool then None
        else Some (length_of fmt x / pool, num_output_features)
    | channels_first =>
        if num_output_features <? pool then None
        else Some (num_output_features / pool, length_of fmt x)
    end.
Proof.
  intros Hg Hb Hf Hp. unfold dense_block_1d.
  rewrite dense_block_loop_shape by assumption. intros [= <-].
  unfold transition, BatchNormalization, activation, Conv1D, AveragePooling1D.
  simpl. destruct (Z.leb_spec num_output_features 0) as [|_]; [lia|].
  assert (Hdiv : forall a, (a - pool) / pool + 1 = a / pool).
  { intros a. rewrite <- Z.div_add by lia. f_equal. lia. }
  destruct fmt; simpl; destruct (Z.leb_spec pool 0); try lia; simpl.
  - destruct (Z.ltb_spec num_output_features pool); [reflexivity|].
    now rewrite Hdiv.
  - destruct (Z.ltb_spec (fst x) pool); [reflexivity|]. now rewrite Hdiv.
Qed.

End DenseFacts.

Section DenseExamples.
Import Layers.

(** Four layers of growth 16 on 64 channels of 100 samples. *)
Lemma dense_block_1d_grows_channels_witness :
  exists y, dense_block_1d (64, 100) 4 2 16 channels_first = Some y /\
    channels_of channels_first y
      = channels_of channels_first (64, 100) + Z.max 0 4 * 16 /\
    length_of channels_first y = length_of channels_first (64, 100).
Proof.
  apply (dense_block_1d_grows_channels (64, 100) 4 2 16 channels_first); lia.
Defined.

(** The transition that follows, to 32 features with a pool of 2: 16
    channels of 100 samples come out. *)
Lemma dense_block_then_transition_witness :
  transition (128, 100) 32 2 channels_first = Some (16, 100).
Proof.
  apply (dense_block_then_transition (64, 100) (128, 100) 4 2 16 32 2
           channels_first); try lia.
  reflexivity.
Defined.

End DenseExamples.

(* ===================================================================== *)
(** * More of src/dn3/transforms/basic.py: TemporalPadding               *)
(* ===================================================================== *)

Section PaddingFacts.
Import Transforms.
Context {T : Torch}.


Lemma py_range_empty (lo hi : Z) : hi <= lo -> py_range lo hi = [].
Proof.
  intros H. unfold py_range. replace (Z.to_nat (hi - lo)) with 0%nat by lia.
  reflexivity.
Qed.

Lemma TemporalPadding_call_short (self : TemporalPadding.t) (x : tensor)
    (channels samples : Z) :
  shape x = [channels; samples] ->
  TemporalPadding.mode self = "constant"%string ->
  0 <= channels ->
  0 <= samples + TemporalPadding.start_padding self + TemporalPadding.end_padding self ->
  samples <= 2 \/ samples = 4 ->
  exists y, fst (TemporalPadding.__call__ x self) = inr (VTensor y) /\
    shape y = [channels;
               samples + TemporalPadding.start_padding self
               + TemporalPadding.end_padding self].
Proof.
  intros Hsh Hmode Hc Hn Hcase.
  unfold TemporalPadding.__call__, bind, get, lift, shape_last. rewrite Hsh.
  simpl last. cbv iota beta. unfold F_pad. rewrite Hmode.
  rewrite bool_decide_eq_true_2 by reflexivity.
  assert (Hzeros : map (fun _ : Z => 0) (py_range 2 samples) = []
                   \/ map (fun _ : Z => 0) (py_range 2 samples) = [0; 0]).
  { destruct Hcase as [Hle| ->]; [left|right].
    - now rewrite py_range_empty by lia.
    - reflexivity. }
  unfold constant_pad_nd. rewrite Hsh.
  destruct Hzeros as [-> | ->]; simpl;
    (replace (0 <=? channels + 0 + 0) with true by (symmetry; apply Z.leb_le; lia));
    (replace (0 <=? samples + TemporalPadding.start_padding self
                    + TemporalPadding.end_padding self) with true
       by (symmetry; apply Z.leb_le; lia));
    simpl; eexists; (split; [reflexivity|]); simpl; f_equal; lia.
Qed.

(** X7: [TemporalPadding.__call__] on a trial of shape (channels, samples)
    with the default mode and paddings that are not negative.  The call
    returns exactly when there are at most 2 samples, or 4; and whenever it
    returns, the result is a tensor with the same channels whose number of
    samples is what [new_sequence_length] announces. *)
Theorem TemporalPadding_call_on_trials (self : TemporalPadding.t) (x : tensor)
    (channels samples : Z) :
  shape x = [channels; samples] ->
  TemporalPadding.mode self = "constant"%string ->
  0 <= channels -> 0 <= samples ->
  0 <= TemporalPadding.start_padding self ->
  0 <= TemporalPadding.end_padding self ->
  ((exists y, fst (TemporalPadding.__call__ x self) = inr y)
   <-> samples <= 2 \/ samples = 4) /\
  (forall y, fst (TemporalPadding.__call__ x self) = inr y ->
     exists t n, y = VTensor t /\
       fst (TemporalPadding.new_sequence_length samples self) = inr n /\
       shape t = [channels; n]).
Proof.
  intros Hsh Hmode Hc Hn Hs He.
  destruct (Z.le_gt_cases samples 2) as [Hle|Hgt];
    [|destruct (Z.eq_dec samples 4) as [H4|H4]].
  1,2: destruct (TemporalPadding_call_short self x channels samples)
         as (t & Hrun & Hshape); try assumption; try lia;
       (split; [split; [intros _; lia|intros _; eauto]|]);
       intros y Hy; rewrite Hrun in Hy; injection Hy as <-;
       exists t, (samples + TemporalPadding.start_padding self
                  + TemporalPadding.end_padding self);
       (split; [reflexivity|split; [reflexivity|exact Hshape]]).
  destruct (TemporalPadding_call_raises self x channels samples)
    as (e & Hraise); try assumption; try lia.
  split; [split; [intros [y Hy]; congruence|lia]|].
  intros y Hy. congruence.
Qed.

End PaddingFacts.

Section PaddingExamples.
Import Transforms.

(** [TemporalPadding(1, 1)] on a trial of 2 channels and 2 samples. *)
Lemma TemporalPadding_call_on_trials_witness :
  let T := torch_float32 in
  let self := TemporalPadding.__init__ 1 1 "constant" (S754_zero false) in
  let x := {| shape := [2; 2];
              data := [S754_zero false; S754_zero false;
                       S754_zero false; S754_zero false] |} in
  ((exists y, fst (TemporalPadding.__call__ x self) = inr y)
   <-> 2 <= 2 \/ 2 = 4) /\
  (forall y, fst (TemporalPadding.__call__ x self) = inr y ->
     exists t n, y = VTensor t /\
       fst (TemporalPadding.new_sequence_length 2 self) = inr n /\
       shape t = [2; n]).
Proof.
  intros T self x.
  apply (TemporalPadding_call_on_trials self x 2 2);
    first [reflexivity | simpl; lia].
Defined.

End PaddingExamples.

(* ===================================================================== *)
(** * More of src/dn3/transforms/basic.py: MappingDeep1010               *)
(* ===================================================================== *)

Section ChannelsFacts.
Import Transforms.

Lemma filter_seq_nil (f : nat -> bool) (n : nat) :
  List.filter f (seq 0 n) = [] <-> forall i, (i < n)%nat -> f i = false.
Proof.
  split.
  - intros H i Hi. destruct (f i) eqn:Hf; [|reflexivity].
    assert (Hin : In i (List.filter f (seq 0 n))).
    { apply filter_In. split; [apply in_seq; lia|exact Hf]. }
    rewrite H in Hin. destruct Hin.
  - intros H. induction n as [|n IH]; [reflexivity|].
    rewrite seq_S, List.filter_app, IH by (intros; apply H; lia).
    simpl. now rewrite H by lia.
Qed.

Lemma filter_seq_single (f : nat -> bool) (n i : nat) :
  (i < n)%nat -> f i = true ->
  (forall i', (i' < n)%nat -> i' <> i -> f i' = false) ->
  List.filter f (seq 0 n) = [i].
Proof.
  intros Hi Hfi Hother.
  replace n with (i + S (n - S i))%nat by lia.
  rewrite seq_app, List.filter_app. simpl. rewrite Hfi.
  assert (H1 : List.filter f (seq 0 i) = []).
  { apply filter_seq_nil. intros k Hk. apply Hother; lia. }
  assert (H2 : List.filter f (seq (S i) (n - S i)) = []).
  { destruct (List.filter f (seq (S i) (n - S i))) as [|k l] eqn:Hl; [reflexivity|].
    assert (Hin : In k (List.filter f (seq (S i) (n - S i))))
      by (rewrite Hl; left; reflexivity).
    apply filter_In in Hin as [Hin Hfk]. apply in_seq in Hin.
    rewrite Hother in Hfk by lia. discriminate. }
  now rewrite H1, H2.
Qed.

Lemma new_channel_matrix (self : MappingDeep1010.t) (old : list string)
    (rows cols j : nat) :
  (rows <= length old)%nat ->
  exists e,
    MappingDeep1010.new_channel self old rows cols 1 j true = inr e /\
    (e = None <-> MappingDeep1010.active_rows self rows cols j = []) /\
    (forall i name,
        MappingDeep1010.active_rows self rows cols j = [i] ->
        old !! i = Some name -> e = Some name).
Proof.
  intros Hrows. unfold MappingDeep1010.new_channel.
  destruct (MappingDeep1010.active_rows self rows cols j) as [|i0 rest] eqn:Hact.
  { exists None. split; [reflexivity|]. split; [tauto|]. intros i name [=]. }
  assert (Hsome : is_Some (mapM (fun i => old !! i) (i0 :: rest))).
  { apply mapM_is_Some. apply Forall_forall. intros i Hin.
    apply lookup_lt_is_Some_2.
    assert (Hin' : In i (MappingDeep1010.active_rows self rows cols j))
      by (rewrite Hact; apply list_elem_of_In; exact Hin).
    apply filter_In in Hin' as [Hin' _]. apply in_seq in Hin'. lia. }
  destruct Hsome as [names Hnames].
  unfold MappingDeep1010.joined. rewrite Hnames. simpl.
  eexists. split; [reflexivity|]. split; [split; discriminate|].
  intros i name [= -> ->] Hname. simpl in Hnames. rewrite Hname in Hnames.
  simpl in Hnames. injection Hnames as <-. reflexivity.
Qed.

Lemma new_channels_loop_matrix (self : MappingDeep1010.t) (old : list string)
    (rows cols : nat) (columns : list nat) (acc : list (option string)) :
  (rows <= length old)%nat ->
  exists es,
    MappingDeep1010.new_channels_loop self old rows cols 1 true columns acc
      = MappingDeep1010.Channels (acc ++ es) /\
    Forall2 (fun j e =>
               MappingDeep1010.new_channel self old rows cols 1 j true = inr e)
            columns es.
Proof.
  intros Hrows. revert acc. induction columns as [|j columns IH]; intros acc.
  - exists []. rewrite app_nil_r. split; [reflexivity|constructor].
  - destruct (new_channel_matrix self old rows cols j Hrows) as (e & He & _).
    cbn [MappingDeep1010.new_channels_loop]. rewrite He.
    destruct (IH (acc ++ [e])) as (es & Hrun & Hall).
    exists (e :: es). rewrite Hrun, <- app_assoc. split; [reflexivity|].
    constructor; assumption.
Qed.

(** X8: [MappingDeep1010.new_channels] for a mapping matrix of [rows] rows
    and [cols] columns, given at least [rows] old channel names.  It returns
    one entry per column of the mapping.  The entry is [None] exactly when
    the column is zero throughout; and when a single row of the column is not
    zero, it is the old name of that row. *)
Theorem new_channels_of_matrix (self : MappingDeep1010.t) (old : list string)
    (rows cols : Z) :
  shape (MappingDeep1010.mapping self) = [rows; cols] ->
  (Z.to_nat rows <= length old)%nat ->
  exists names,
    MappingDeep1010.new_channels self old = MappingDeep1010.Channels names /\
    length names = Z.to_nat cols /\
    forall j : nat, (j < Z.to_nat cols)%nat ->
      (names !! j = Some None <->
       forall i : nat, (i < Z.to_nat rows)%nat ->
         MappingDeep1010.nonzero
           (MappingDeep1010.entry self (Z.to_nat cols) 1 i j 0) = false) /\
      (forall (i : nat) name,
         (i < Z.to_nat rows)%nat -> old !! i = Some name ->
         MappingDeep1010.nonzero
           (MappingDeep1010.entry self (Z.to_nat cols) 1 i j 0) = true ->
         (forall i' : nat, (i' < Z.to_nat rows)%nat -> i' <> i ->
            MappingDeep1010.nonzero
              (MappingDeep1010.entry self (Z.to_nat cols) 1 i' j 0) = false) ->
         names !! j = Some (Some name)).
Proof.
  intros Hshape Hrows. unfold MappingDeep1010.new_channels. rewrite Hshape.
  destruct (new_channels_loop_matrix self old (Z.to_nat rows) (Z.to_nat cols)
              (seq 0 (Z.to_nat cols)) [] Hrows) as (names & Hrun & Hall).
  simpl fold_right. change (Z.to_nat 1) with 1%nat.
  exists names. split; [exact Hrun|].
  pose proof (Forall2_length _ _ _ Hall) as Hlen. rewrite length_seq in Hlen.
  split; [now symmetry|].
  intros j Hj.
  assert (Hj' : seq 0 (Z.to_nat cols) !! j = Some j) by now apply lookup_seq_lt.
  destruct (Forall2_lookup_l _ _ _ _ _ Hall Hj') as (e & He & Hnew).
  destruct (new_channel_matrix self old (Z.to_nat rows) (Z.to_nat cols) j Hrows)
    as (e' & He' & Hnone & Hone).
  rewrite He' in Hnew. injection Hnew as ->. rewrite He.
  split.
  - unfold MappingDeep1010.active_rows in Hnone. rewrite filter_seq_nil in Hnone.
    rewrite <- Hnone. split; [intros [= ->]; reflexivity|intros ->; reflexivity].
  - intros i name Hi Hname Hnz Hothers. f_equal. apply (Hone i name); [|exact Hname].
    unfold MappingDeep1010.active_rows. now apply filter_seq_single.
Qed.

End ChannelsFacts.

Section ChannelsExamples.
Import Transforms.

(** Two old channels mapped onto the first and the last of three. *)
Lemma new_channels_of_matrix_witness :
  let one := S754_finite false 1 0 in
  let zero := S754_zero false in
  let self := {| MappingDeep1010.only_trial_data := true;
                 MappingDeep1010.mapping :=
                   {| shape := [2; 3];
                      data := [one; zero; zero; zero; zero; one] |};
                 MappingDeep1010.add_scale_ind := true;
                 MappingDeep1010.return_mask := true |} in
  let old := ["C3"; "C4"]%string in
  exists names,
    MappingDeep1010.new_channels self old = MappingDeep1010.Channels names /\
    length names = Z.to_nat 3 /\
    forall j : nat, (j < Z.to_nat 3)%nat ->
      (names !! j = Some None <->
       forall i : nat, (i < Z.to_nat 2)%nat ->
         MappingDeep1010.nonzero
           (MappingDeep1010.entry self (Z.to_nat 3) 1 i j 0) = false) /\
      (forall (i : nat) name,
         (i < Z.to_nat 2)%nat -> old !! i = Some name ->
         MappingDeep1010.nonzero
           (MappingDeep1010.entry self (Z.to_nat 3) 1 i j 0) = true ->
         (forall i' : nat, (i' < Z.to_nat 2)%nat -> i' <> i ->
            MappingDeep1010.nonzero
              (MappingDeep1010.entry self (Z.to_nat 3) 1 i' j 0) = false) ->
         names !! j = Some (Some name)).
Proof.
  intros one zero self old.
  apply (new_channels_of_matrix self old 2 3); [reflexivity|simpl; lia].
Defined.

End ChannelsExamples.

(* ===================================================================== *)
(** * More of src/dn3/trainable/trainable.py: construction               *)
(* ===================================================================== *)

Section InitMore.
Import Trainable.
Variable device_ok : string -> bool.
Variable move_fails : string -> option exn.

Lemma for_each_first_raises {St A} (x : A) (xs : list A) (body : A -> M St unit)
    (e : exn) (s : St) :
  body x s = (inl e, s) -> for_each (x :: xs) body s = (inl e, s).
Proof. intros H. simpl. unfold bind. now rewrite H. Qed.

Lemma place_new_members_run (before : gset string) (self : obj) :
  BaseTrainable.place_new_members move_fails before self
  = match elements (before ∖ dom self) with
    | [] => (inr tt, self)
    | member :: _ => (inl (KeyError member), self)
    end.
Proof.
  unfold BaseTrainable.place_new_members. rewrite bind_run. unfold get at 1.
  cbv beta iota zeta.
  destruct (elements (before ∖ dom self)) as [|m rest] eqn:Hel; [reflexivity|].
  assert (Hm : m ∈ before ∖ dom self).
  { apply elem_of_elements. rewrite Hel. left. }
  apply elem_of_difference in Hm as [_ Hout].
  apply (for_each_first_raises m rest _ (KeyError m)).
  rewrite bind_run. unfold get at 1.
  apply not_elem_of_dom in Hout. now rewrite Hout.
Qed.

(** X9: the loop of [BaseTrainable.__init__] that is to move the new
    members to the device (lines 32-35) moves nothing.  It goes over the
    members that were there before [build_network] and are gone after it:
    when there is none it does nothing, and otherwise the first one it looks
    up is missing and it raises [KeyError].  In both cases the object is
    left as it was. *)
Theorem place_new_members_never_moves (before : gset string) (self : obj) :
  snd (BaseTrainable.place_new_members move_fails before self) = self /\
  (fst (BaseTrainable.place_new_members move_fails before self) = inr tt
   <-> before ⊆ dom self) /\
  (forall e,
     fst (BaseTrainable.place_new_members move_fails before self) = inl e ->
     exists member, e = KeyError member /\ member ∈ before /\ member ∉ dom self).
Proof.
  rewrite place_new_members_run.
  destruct (elements (before ∖ dom self)) as [|m rest] eqn:Hel.
  - apply elements_empty_inv in Hel. apply leibniz_equiv in Hel.
    simpl. split; [reflexivity|]. split; [|intros e; discriminate].
    split; [|reflexivity]. intros _ k Hk.
    destruct (decide (k ∈ dom self)) as [|Hout]; [assumption|].
    assert (k ∈ before ∖ dom self) by (apply elem_of_difference; auto).
    rewrite Hel in H. now apply elem_of_empty in H.
  - assert (Hm : m ∈ before ∖ dom self).
    { apply elem_of_elements. rewrite Hel. left. }
    apply elem_of_difference in Hm as [Hin Hout].
    simpl. split; [reflexivity|]. split.
    + split; [discriminate|]. intros Hsub. exfalso. apply Hout, Hsub, Hin.
    + intros e [= <-]. eauto.
Qed.

(** The constructor, for an accepted [cuda] and device and a module for
    classifier: as far as the optimizer, and from there to the loss. *)
Lemma classifier_init_run (name : string) (has_parameters : bool)
    (placed : option string) (loss_fn cuda : pyval) (self : obj) :
  cuda_accepted cuda = true ->
  device_ok (device_name cuda) = true ->
  StandardClassifier.__init__ device_ok move_fails
    (PModule name has_parameters placed) loss_fn cuda self
  = let built :=
      <["classifier" := PModule name has_parameters placed]>
        (<["scheduler" := PNone]>
           (<["device" := PDevice (device_name cuda)]>
              (<["cuda" := cuda]> self))) in
    if has_parameters then
      match to_device move_fails
              (if is_None loss_fn then PModule "CrossEntropyLoss" false None
               else loss_fn) (PDevice (device_name cuda)) with
      | inr loss =>
          (inr tt, <["loss" := loss]> (<["optimizer" := PAdam name]> built))
      | inl e => (inl e, <["optimizer" := PAdam name]> built)
      end
    else (inl (ValueError "optimizer got an empty parameter list"), built).
Proof.
  intros Hc Hd. unfold StandardClassifier.__init__. rewrite bind_run.
  rewrite init_accepted by exact Hc. rewrite Hd. cbv zeta.
  rewrite bind_run, build_network_classifier. cbn [is_None].
  rewrite bind_run, place_new_members_grown.
  2:{ apply dom_insert_subseteq. }
  unfold BaseTrainable.choose_optimizer. cbn [is_None].
  rewrite bind_run.
  assert (Hparams : forall s : obj,
             StandardClassifier.parameters
               (<["classifier" := PModule name has_parameters placed]> s)
             = (inr (PParameters name has_parameters),
                <["classifier" := PModule name has_parameters placed]> s)).
  { intros s. unfold StandardClassifier.parameters, getattr.
    rewrite !bind_run. unfold get at 1. rewrite lookup_insert_eq. reflexivity. }
  rewrite Hparams. rewrite bind_run. unfold lift at 1. cbn [torch_optim_Adam].
  destruct has_parameters; [|reflexivity].
  unfold setattr at 1, modify at 1.
  rewrite bind_run. unfold getattr. rewrite bind_run. unfold get at 1.
  rewrite lookup_insert_ne by discriminate.
  rewrite lookup_insert_ne by discriminate.
  rewrite lookup_insert_ne by discriminate.
  rewrite lookup_insert_eq. unfold ret at 1.
  rewrite bind_run. unfold lift at 1.
  destruct (to_device _ _ _); reflexivity.
Qed.

(** X10: what a successfully constructed [StandardClassifier] holds.  With
    [cuda] a [bool] or a [str] naming a device torch accepts, a module with
    parameters for classifier, and for loss function none, or a module that
    has no parameters or that the machine can move to the device, the
    constructor returns; [cuda], [device], [scheduler] ([None]) and
    [optimizer] (Adam over the classifier's parameters) are set; the loss has
    been moved to the device; the classifier is stored exactly as it was
    passed, not moved to the device; and no other attribute is touched.  For
    a classifier without parameters the constructor raises the [ValueError]
    of the optimizer instead. *)
Theorem classifier_init_leaves_classifier (name : string)
    (has_parameters : bool) (placed : option string)
    (loss_fn cuda : pyval) (self : obj) :
  cuda_accepted cuda = true ->
  device_ok (device_name cuda) = true ->
  loss_fn = PNone \/
    (exists n p pl, loss_fn = PModule n p pl /\
                    (p = false \/ move_fails (device_name cuda) = None)) ->
  let r := StandardClassifier.__init__ device_ok move_fails
             (PModule name has_parameters placed) loss_fn cuda self in
  (has_parameters = false ->
   fst r = inl (ValueError "optimizer got an empty parameter list")) /\
  (has_parameters = true ->
   fst r = inr tt /\
   snd r !! "cuda"%string = Some cuda /\
   snd r !! "device"%string = Some (PDevice (device_name cuda)) /\
   snd r !! "scheduler"%string = Some PNone /\
   snd r !! "classifier"%string = Some (PModule name has_parameters placed) /\
   snd r !! "optimizer"%string = Some (PAdam name) /\
   snd r !! "loss"%string =
     Some (match loss_fn with
           | PModule n p _ => PModule n p (Some (device_name cuda))
           | _ => PModule "CrossEntropyLoss" false (Some (device_name cuda))
           end) /\
   (forall k, k ∉ ["cuda"; "device"; "scheduler"; "classifier"; "optimizer";
                   "loss"]%string -> snd r !! k = self !! k)).
Proof.
  intros Hc Hd Hloss r. subst r. rewrite classifier_init_run by assumption.
  cbv zeta. split; [intros ->; reflexivity|]. intros ->.
  assert (Hto : exists loss,
            to_device move_fails
              (if is_None loss_fn then PModule "CrossEntropyLoss" false None
               else loss_fn) (PDevice (device_name cuda)) = inr loss /\
            loss = match loss_fn with
                   | PModule n p _ => PModule n p (Some (device_name cuda))
                   | _ => PModule "CrossEntropyLoss" false
                            (Some (device_name cuda))
                   end).
  { destruct Hloss as [->|(n & p & pl & -> & [->|Hmove])].
    - eexists. split; reflexivity.
    - eexists. split; reflexivity.
    - eexists. split; [|reflexivity]. simpl. rewrite Hmove.
      destruct p; reflexivity. }
  destruct Hto as (loss & -> & ->). cbn [fst snd].
  split; [reflexivity|].
  repeat split.
  all: try (repeat (rewrite lookup_insert_ne by discriminate);
            rewrite lookup_insert_eq; reflexivity).
  intros k Hk.
  repeat (apply not_elem_of_cons in Hk as [? Hk]).
  repeat (rewrite lookup_insert_ne by congruence). reflexivity.
Qed.

End InitMore.

Section InitMoreExamples.
Import Trainable.

(** [StandardClassifier(net, cuda=True)] on a machine with a GPU, for a
    network with parameters. *)
Lemma classifier_init_leaves_classifier_witness :
  let device_ok := fun name : string =>
                     bool_decide (name = "cpu" \/ name = "cuda")%string in
  let move_fails := fun _ : string => @None exn in
  let r := StandardClassifier.__init__ device_ok move_fails
             (PModule "net" true None) PNone (PBool true) ∅ in
  (true = false ->
   fst r = inl (ValueError "optimizer got an empty parameter list")) /\
  (true = true ->
   fst r = inr tt /\
   snd r !! "cuda"%string = Some (PBool true) /\
   snd r !! "device"%string = Some (PDevice (device_name (PBool true))) /\
   snd r !! "scheduler"%string = Some PNone /\
   snd r !! "classifier"%string = Some (PModule "net" true None) /\
   snd r !! "optimizer"%string = Some (PAdam "net") /\
   snd r !! "loss"%string
     = Some (PModule "CrossEntropyLoss" false
               (Some (device_name (PBool true)))) /\
   (forall k, k ∉ ["cuda"; "device"; "scheduler"; "classifier"; "optimizer";
                   "loss"]%string -> snd r !! k = (∅ : obj) !! k)).
Proof.
  intros device_ok move_fails.
  apply (classifier_init_leaves_classifier device_ok move_fails "net" true None
           PNone (PBool true) ∅).
  - reflexivity.
  - vm_compute. reflexivity.
  - left. reflexivity.
Defined.

End InitMoreExamples.

(* ===================================================================== *)
(** * More of src/dn3/trainable/trainable.py: the metrics of evaluate    *)
(* ===================================================================== *)

Section MetricsMore.
Import Trainable.

Lemma update_each_missing (iterations : Z)
    (items : list (string * spec_float)) :
  1 <= iterations < 2 ^ 53 ->
  forall metrics : gmap string spec_float,
  (exists m v, (m, v) ∈ items /\ metrics !! m = None) ->
  exists m, BaseTrainable.update_each iterations items metrics = inl (KeyError m) /\
            m ∈ items.*1 /\ metrics !! m = None.
Proof.
  intros Hit.
  induction items as [|[m v] items IH]; intros metrics (m' & v' & Hin & Hnone).
  - inversion Hin.
  - simpl. destruct (metrics !! m) as [old|] eqn:Hold.
    + apply elem_of_cons in Hin as [[= -> ->]|Hin]; [congruence|].
      assert (Hne : m <> m') by congruence.
      destruct (running_update_returns old v iterations Hit)
        as (k1 & k & _ & _ & ->).
      destruct (IH (<[m := SFdiv 53 1024
                            (SFadd 53 1024 (SFmul 53 1024 old k1) v) k]> metrics))
        as (k0 & Hrun & Hk & Hknone).
      { exists m', v'. split; [exact Hin|]. now rewrite lookup_insert_ne. }
      exists k0. split; [exact Hrun|]. split; [now right|].
      apply lookup_insert_None in Hknone. tauto.
    + exists m. split; [reflexivity|]. split; [left|exact Hold].
Qed.

Lemma update_metrics_missing (metrics new_metrics : gmap string spec_float)
    (iterations : Z) :
  1 <= iterations < 2 ^ 53 ->
  metrics <> ∅ -> ~ dom new_metrics ⊆ dom metrics ->
  exists m,
    BaseTrainable.update_metrics metrics new_metrics iterations
      = inl (KeyError m) /\
    m ∈ dom new_metrics /\ m ∉ dom metrics.
Proof.
  intros Hit Hne Hsub. unfold BaseTrainable.update_metrics.
  destruct (Nat.eqb_spec (size metrics) 0) as [Hsize|_];
    [now apply map_size_empty_iff in Hsize|].
  assert (Hmiss : exists m v, new_metrics !! m = Some v /\ metrics !! m = None).
  { destruct (decide (Forall (fun kv => is_Some (metrics !! kv.1))
                             (map_to_list new_metrics))) as [Hall|Hnot].
    - exfalso. apply Hsub. intros k Hk. apply elem_of_dom in Hk as [v Hv].
      apply elem_of_dom. rewrite Forall_forall in Hall.
      apply (Hall (k, v)). now apply elem_of_map_to_list.
    - apply not_Forall_Exists in Hnot; [|intros ?; apply _].
      apply Exists_exists in Hnot as ([m v] & Hin & Hno).
      exists m, v. split; [now apply elem_of_map_to_list|].
      simpl in Hno. now apply eq_None_not_Some. }
  destruct Hmiss as (m & v & Hv & Hnone).
  destruct (update_each_missing iterations (map_to_list new_metrics) Hit metrics)
    as (k & Hrun & Hk & Hknone).
  { exists m, v. split; [now apply elem_of_map_to_list|exact Hnone]. }
  exists k. split; [exact Hrun|]. split.
  - apply list_elem_of_fmap in Hk as ([k' v'] & -> & Hin).
    apply elem_of_map_to_list in Hin. apply elem_of_dom. eauto.
  - now apply not_elem_of_dom.
Qed.

Lemma update_metrics_first (new_metrics : gmap string spec_float)
    (iterations : Z) :
  BaseTrainable.update_metrics ∅ new_metrics iterations = inr new_metrics.
Proof.
  unfold BaseTrainable.update_metrics. rewrite map_size_empty. simpl.
  now rewrite (right_id_L ∅ (∪)).
Qed.

Lemma running_update_zero (old new : spec_float) :
  BaseTrainable.running_update old new 0 = inl ZeroDivisionError.
Proof.
  unfold BaseTrainable.running_update, float_mul_int, float_div_int.
  assert (H1 : float_of_int (0 - 1)
               = inr (S754_finite true 4503599627370496 (-52)))
    by (vm_compute; reflexivity).
  assert (H0 : float_of_int 0 = inr (S754_zero false)) by reflexivity.
  rewrite H1, H0. reflexivity.
Qed.

Lemma update_metrics_zero_iterations (metrics new_metrics : gmap string spec_float) :
  metrics <> ∅ -> new_metrics <> ∅ -> dom new_metrics ⊆ dom metrics ->
  BaseTrainable.update_metrics metrics new_metrics 0 = inl ZeroDivisionError.
Proof.
  intros Hne Hnew Hsub. unfold BaseTrainable.update_metrics.
  destruct (Nat.eqb_spec (size metrics) 0) as [Hsize|_];
    [now apply map_size_empty_iff in Hsize|].
  destruct (map_to_list new_metrics) as [|[m v] items] eqn:Hitems.
  { now apply map_to_list_empty_iff in Hitems. }
  assert (Hv : new_metrics !! m = Some v).
  { apply elem_of_map_to_list. rewrite Hitems. left. }
  assert (Hm : is_Some (metrics !! m)).
  { apply elem_of_dom, Hsub, elem_of_dom. eauto. }
  destruct Hm as [old Hold]. cbn [BaseTrainable.update_each]. rewrite Hold.
  now rewrite running_update_zero.
Qed.

(** X11: the ways [update_metrics] of [evaluate] goes.  While no metric is
    held yet, the new ones are taken as they are.  Afterwards, for a count of
    iterations from 1 to below 2^53: when every new metric is already held,
    each of them is replaced by the float value of
    [(held * (iterations - 1) + new) / iterations], a metric that is held but
    not reported keeps its value, and no key is added; and when a new metric
    is not held, the update raises [KeyError] for a metric that is reported
    but not held.  With [iterations] 0 an update of held metrics raises
    [ZeroDivisionError]. *)
Theorem update_metrics_outcome (metrics new_metrics : gmap string spec_float)
    (iterations : Z) :
  (metrics = ∅ ->
   BaseTrainable.update_metrics metrics new_metrics iterations = inr new_metrics) /\
  (metrics <> ∅ -> dom new_metrics ⊆ dom metrics ->
   1 <= iterations < 2 ^ 53 ->
   exists metrics' k1 k,
     float_of_int (iterations - 1) = inr k1 /\
     float_of_int iterations = inr k /\
     BaseTrainable.update_metrics metrics new_metrics iterations = inr metrics' /\
     dom metrics' = dom metrics /\
     (forall m v, new_metrics !! m = Some v ->
        exists old, metrics !! m = Some old /\
          metrics' !! m =
            Some (SFdiv 53 1024
                    (SFadd 53 1024 (SFmul 53 1024 old k1) v) k)) /\
     (forall m, new_metrics !! m = None -> metrics' !! m = metrics !! m)) /\
  (metrics <> ∅ -> ~ dom new_metrics ⊆ dom metrics ->
   1 <= iterations < 2 ^ 53 ->
   exists m,
     BaseTrainable.update_metrics metrics new_metrics iterations
       = inl (KeyError m) /\
     m ∈ dom new_metrics /\ m ∉ dom metrics) /\
  (metrics <> ∅ -> new_metrics <> ∅ -> dom new_metrics ⊆ dom metrics ->
   iterations = 0 ->
   BaseTrainable.update_metrics metrics new_metrics iterations
     = inl ZeroDivisionError).
Proof.
  split; [|split; [|split]].
  - intros ->. apply update_metrics_first.
  - intros Hne Hsub Hit. unfold BaseTrainable.update_metrics.
    destruct (Nat.eqb_spec (size metrics) 0) as [Hsize|_];
      [now apply map_size_empty_iff in Hsize|].
    destruct (update_each_spec iterations (map_to_list new_metrics) Hit metrics)
      as (metrics' & Hrun & Hdom & Hupd & Hkeep).
    { apply NoDup_fst_map_to_list. }
    { intros m v Hmv. apply elem_of_map_to_list in Hmv.
      apply elem_of_dom, Hsub, elem_of_dom. eauto. }
    destruct (running_update_returns (S754_zero false) (S754_zero false)
                iterations Hit) as (k1 & k & Hk1 & Hk & _).
    exists metrics', k1, k. split; [exact Hk1|]. split; [exact Hk|].
    split; [exact Hrun|]. split; [exact Hdom|]. split.
    + intros m v Hv.
      destruct (Hupd m v) as (old & average & Hold & Hav & Hnew);
        [now apply elem_of_map_to_list|].
      exists old. split; [exact Hold|]. rewrite Hnew. f_equal.
      destruct (running_update_returns old v iterations Hit)
        as (k1' & k' & Hk1' & Hk' & Hrun').
      congruence.
    + intros m Hnone. apply Hkeep. intros Hin.
      apply list_elem_of_fmap in Hin as ([m' v] & -> & Hin).
      apply elem_of_map_to_list in Hin. simpl in Hnone. congruence.
  - intros Hne Hsub Hit. now apply update_metrics_missing.
  - intros Hne Hnew Hsub ->. now apply update_metrics_zero_iterations.
Qed.

Variables batch output : Type.
Variable network : batch -> output.
Variable calculate_metrics_of : batch -> output -> gmap string spec_float.

(** X12: [BaseTrainable.evaluate] on a loader whose second batch reports a
    metric the first one did not (the first reporting at least one): the
    second update raises [KeyError] for such a metric, after the second batch
    has been fetched, passed through the network and measured, and nothing is
    returned for the batches processed so far. *)
Theorem evaluate_new_metric_raises (b1 b2 : batch) (rest : list batch)
    (tr : list event) :
  calculate_metrics_of b1 (network b1) <> ∅ ->
  ~ dom (calculate_metrics_of b2 (network b2))
      ⊆ dom (calculate_metrics_of b1 (network b1)) ->
  exists m,
    BaseTrainable.evaluate batch output
      (fun b => calling Forward (network b))
      (fun b o => calling Metrics (calculate_metrics_of b o))
      (b1 :: b2 :: rest) tr
    = (inl (KeyError m),
       tr ++ [NextBatch; Forward; Metrics; Postfix; NextBatch; Forward; Metrics]) /\
    m ∈ dom (calculate_metrics_of b2 (network b2)) /\
    m ∉ dom (calculate_metrics_of b1 (network b1)).
Proof.
  intros Hne Hsub.
  set (m1 := calculate_metrics_of b1 (network b1)) in *.
  set (m2 := calculate_metrics_of b2 (network b2)) in *.
  pose proof (update_metrics_first m1 (0 + 1)) as H1.
  destruct (update_metrics_missing m1 m2 (0 + 1 + 1)) as (m & H2 & Hin & Hout);
    [split; [discriminate|reflexivity]|exact Hne|exact Hsub|].
  exists m. split; [|auto].
  unfold BaseTrainable.evaluate. cbn [enumerate for_acc].
  unfold BaseTrainable.evaluate_batch, calling, emit, modify, bind, ret, lift.
  fold m1. rewrite H1. fold m2. rewrite H2.
  rewrite <- !app_assoc. reflexivity.
Qed.

End MetricsMore.

Section MetricsMoreExamples.
Import Trainable.

(** A first batch that reports an accuracy and a second that reports an F1
    score. *)
Lemma evaluate_new_metric_raises_witness :
  let one := S754_finite false 4503599627370496 (-52) in
  let metrics_of := fun (b : bool) (_ : unit) =>
    if b then ({["acc"%string := one]} : gmap string spec_float)
    else {["f1"%string := one]} in
  exists m,
    BaseTrainable.evaluate bool unit
      (fun b => calling Forward ((fun _ => tt) b))
      (fun b o => calling Metrics (metrics_of b o))
      (true :: false :: []) []
    = (inl (KeyError m),
       [] ++ [NextBatch; Forward; Metrics; Postfix; NextBatch; Forward; Metrics]) /\
    m ∈ dom (metrics_of false ((fun _ => tt) false)) /\
    m ∉ dom (metrics_of true ((fun _ => tt) true)).
Proof.
  intros one metrics_of.
  apply (evaluate_new_metric_raises bool unit (fun _ => tt) metrics_of
           true false [] []).
  - apply map_non_empty_singleton.
  - simpl. rewrite !dom_singleton_L. intros Hsub.
    specialize (Hsub "f1"%string). rewrite !elem_of_singleton in Hsub.
    discriminate (Hsub eq_refl).
Defined.

End MetricsMoreExamples.

(* ===================================================================== *)
(** * More of src/dn3/trainable/trainable.py: the calls of evaluate and fit *)
(* ===================================================================== *)

Section TraceMore.
Import Trainable.

Lemma emits_only_ret {A} (allowed : event -> bool) (a : A) :
  emits_only allowed (ret a).
Proof. intros tr. exists []. now rewrite app_nil_r. Qed.

Lemma emits_only_lift {A} (allowed : event -> bool) (r : exn + A) :
  emits_only allowed (lift r).
Proof. intros tr. exists []. now rewrite app_nil_r. Qed.

Lemma emits_only_emit (allowed : event -> bool) (e : event) :
  allowed e = true -> emits_only allowed (emit e).
Proof. intros He tr. exists [e]. simpl. now rewrite He. Qed.

Lemma emits_only_bind {A B} (allowed : event -> bool) (c : M trace A)
    (k : A -> M trace B) :
  emits_only allowed c -> (forall a, emits_only allowed (k a)) ->
  emits_only allowed (bind c k).
Proof.
  intros Hc Hk tr. rewrite bind_run. destruct (Hc tr) as (add1 & E1 & N1).
  destruct (c tr) as [[e|a] tr1]; simpl in E1; subst tr1.
  - exists add1. auto.
  - destruct (Hk a (tr ++ add1)) as (add2 & E2 & N2).
    exists (add1 ++ add2). rewrite E2, app_assoc. split; [reflexivity|].
    rewrite forallb_app, N1, N2. reflexivity.
Qed.

Lemma emits_only_for_acc {A B} (allowed : event -> bool) (xs : list A)
    (body : B -> A -> M trace B) :
  (forall acc x, emits_only allowed (body acc x)) ->
  forall acc, emits_only allowed (for_acc xs acc body).
Proof.
  intros Hbody. induction xs as [|x xs IH]; intros acc; simpl.
  - apply emits_only_ret.
  - apply emits_only_bind; auto.
Qed.

Lemma emits_only_weaken {A} (allowed allowed' : event -> bool) (c : M trace A) :
  (forall e, allowed e = true -> allowed' e = true) ->
  emits_only allowed c -> emits_only allowed' c.
Proof.
  intros Himp Hc tr. destruct (Hc tr) as (added & E & N).
  exists added. split; [exact E|].
  apply forallb_forall. intros e He.
  apply Himp. now apply (proj1 (forallb_forall _ _) N).
Qed.

Ltac emits_only_tac :=
  repeat first
    [ apply emits_only_ret
    | apply emits_only_lift
    | apply emits_only_emit; reflexivity
    | apply emits_only_bind; [|intros ?]
    | apply emits_only_for_acc; intros ? ?
    | match goal with
      | |- emits_only _ (if ?b then _ else _) => destruct b
      | |- emits_only _ (match ?o with Some _ => _ | None => _ end) =>
          destruct o
      | |- emits_only _ (let '(_, _) := ?p in _) => destruct p
      end ].

Variables batch output : Type.
Variable network : batch -> output.
Variable network_on_batch : batch -> exn + output.
Variable loss_value : batch -> output -> spec_float.
Variable calculate_metrics_of : batch -> output -> gmap string spec_float.
Variable lr : spec_float.

Lemma base_evaluate_calls (dataset : list batch) :
  emits_only evaluation_call
    (BaseTrainable.evaluate batch output
       (StandardClassifier.forward_on_batch batch output network_on_batch)
       (StandardClassifier.calculate_metrics batch output calculate_metrics_of)
       dataset).
Proof.
  unfold BaseTrainable.evaluate, BaseTrainable.evaluate_batch,
    StandardClassifier.forward_on_batch, StandardClassifier.calculate_metrics,
    calling.
  emits_only_tac.
Qed.

Lemma evaluate_trace (dataset : list batch) (tr : list event) :
  exists rest,
    snd (StandardClassifier.evaluate batch output network_on_batch
           calculate_metrics_of dataset tr) = tr ++ SetTrain false :: rest /\
    forallb evaluation_call rest = true.
Proof.
  unfold StandardClassifier.evaluate. rewrite bind_run.
  unfold emit at 1, modify at 1.
  destruct (base_evaluate_calls dataset (tr ++ [SetTrain false]))
    as (added & E & N).
  exists added. rewrite E, <- app_assoc. split; [reflexivity|exact N].
Qed.

(** X13: [StandardClassifier.evaluate] first puts the classifier in
    evaluation mode, and from then on only fetches batches, applies the
    network, computes the metrics and updates the progress bar: no loss is
    computed, no gradient is touched, nothing is stepped, and no batch is
    moved to the device. *)
Theorem evaluate_makes_no_training_call (dataset : list batch) (tr : list event) :
  exists rest,
    snd (StandardClassifier.evaluate batch output network_on_batch
           calculate_metrics_of dataset tr) = tr ++ SetTrain false :: rest /\
    forall e, e ∈ rest -> e ∈ [NextBatch; Forward; Metrics; Postfix].
Proof.
  destruct (evaluate_trace dataset tr) as (rest & E & N).
  exists rest. split; [exact E|].
  intros e He. apply list_elem_of_In in He.
  apply (proj1 (forallb_forall _ _) N) in He.
  destruct e as [[]| | | | | | | | | | | | | | |]; try discriminate He;
    repeat first [left|right].
Qed.

Abbreviation the_fit :=
  (StandardClassifier.fit batch output network network_on_batch loss_value
     calculate_metrics_of lr).

Lemma fit_emits_no_training_mode (training_dataset : list batch) (epochs : Z)
    (validation_dataset : option (list batch)) (step_callback epoch_callback : bool) :
  emits_only (fun e => negb (training_mode_call e))
    (the_fit training_dataset epochs validation_dataset step_callback epoch_callback).
Proof.
  unfold StandardClassifier.fit, StandardClassifier.fit_epoch,
    StandardClassifier.fit_batch, BaseTrainable.standard_logging,
    BaseTrainable.backward, StandardClassifier.forward,
    StandardClassifier.calculate_loss, StandardClassifier.calculate_metrics,
    calling.
  emits_only_tac.
Qed.

Lemma trace_grows {A} (allowed : event -> bool) (c : M trace A) (e : event)
    (tr : list event) :
  emits_only allowed c -> e ∈ tr -> e ∈ snd (c tr).
Proof.
  intros Hc He. destruct (Hc tr) as (added & -> & _).
  apply elem_of_app. now left.
Qed.

Lemma bind_trace_mem {A B} (allowed : event -> bool) (c : M trace A)
    (k : A -> M trace B) (e : event) (tr : list event) :
  (forall a, emits_only allowed (k a)) ->
  e ∈ snd (c tr) -> e ∈ snd (bind c k tr).
Proof.
  intros Hk He. rewrite bind_run. destruct (c tr) as [[x|a] tr1]; [exact He|].
  now apply (trace_grows allowed).
Qed.

Lemma py_range_cons (lo hi : Z) :
  lo < hi -> py_range lo hi = lo :: py_range (lo + 1) hi.
Proof.
  intros H. unfold py_range.
  replace (Z.to_nat (hi - lo)) with (S (Z.to_nat (hi - (lo + 1)))) by lia.
  rewrite <- cons_seq, <- seq_shift, map_cons, map_map.
  f_equal; [lia|]. apply map_ext. intros k. lia.
Qed.

(** X14: the mode calls of [StandardClassifier.fit].  Whatever the data, the
    number of epochs, the validation set and the callbacks, [fit] never puts
    the classifier in training mode and never steps the scheduler; and with a
    validation set and at least one epoch it does put the classifier in
    evaluation mode, so that every later epoch runs in that mode. *)
Theorem fit_only_leaves_training_mode (training_dataset : list batch)
    (epochs : Z) (validation_dataset : option (list batch))
    (step_callback epoch_callback : bool) :
  let calls :=
    snd (StandardClassifier.fit batch output network network_on_batch
           loss_value calculate_metrics_of lr training_dataset epochs
           validation_dataset step_callback epoch_callback []) in
  (SetTrain true ∉ calls) /\ (SchedulerStep ∉ calls) /\
  (1 <= epochs -> is_Some validation_dataset -> SetTrain false ∈ calls).
Proof.
  intros calls. subst calls.
  destruct (fit_emits_no_training_mode training_dataset epochs validation_dataset
              step_callback epoch_callback []) as (added & E & N).
  split; [|split].
  - rewrite E. simpl. intros Hin. apply list_elem_of_In in Hin.
    apply (proj1 (forallb_forall _ _) N) in Hin. discriminate Hin.
  - rewrite E. simpl. intros Hin. apply list_elem_of_In in Hin.
    apply (proj1 (forallb_forall _ _) N) in Hin. discriminate Hin.
  - intros Hep [vd ->]. unfold StandardClassifier.fit.
    rewrite py_range_cons by lia. cbn [for_acc].
    apply (bind_trace_mem (fun _ => true)).
    { intros logs. apply emits_only_for_acc. intros acc epoch.
      unfold StandardClassifier.fit_epoch, StandardClassifier.fit_batch,
        StandardClassifier.evaluate, BaseTrainable.evaluate,
        BaseTrainable.evaluate_batch, BaseTrainable.standard_logging,
        BaseTrainable.backward, StandardClassifier.forward,
        StandardClassifier.forward_on_batch,
        StandardClassifier.calculate_loss, StandardClassifier.calculate_metrics,
        calling.
      emits_only_tac. }
    unfold StandardClassifier.fit_epoch. rewrite bind_run.
    destruct (for_acc_trace
                (fun train_log '(iteration, b) =>
                   StandardClassifier.fit_batch batch output network loss_value
                     calculate_metrics_of lr step_callback 1 iteration b train_log)
                (batch_calls step_callback))
      with (xs := enumerate 1 training_dataset)
           (acc := ([] : list (gmap string number))) (tr := ([] : list event))
      as (log' & Hrun).
    { intros acc [it b] tr1. apply fit_batch_trace. }
    cbn [fst]. rewrite Hrun.
    apply (bind_trace_mem (fun _ => true)).
    { intros val_metrics. unfold BaseTrainable.standard_logging.
      emits_only_tac. }
    destruct (evaluate_trace vd
                ([] ++ concat (map (fun _ => batch_calls step_callback)
                                   (enumerate 1 training_dataset))))
      as (rest & -> & _).
    apply elem_of_app. right. left.
Qed.

End TraceMore.

(* ===================================================================== *)
(** * More of src/dn3/trainable/trainable.py: the logs of fit            *)
(* ===================================================================== *)

Section LogsMore.
Import Trainable.

Variables batch output : Type.
Variable network : batch -> output.
Variable network_on_batch : batch -> exn + output.
Variable loss_value : batch -> output -> spec_float.
Variable calculate_metrics_of : batch -> output -> gmap string spec_float.
Variable lr : spec_float.

Abbreviation the_fit :=
  (StandardClassifier.fit batch output network network_on_batch loss_value
     calculate_metrics_of lr).
Abbreviation the_fit_epoch :=
  (StandardClassifier.fit_epoch batch output network network_on_batch loss_value
     calculate_metrics_of lr).
Abbreviation the_fit_batch :=
  (StandardClassifier.fit_batch batch output network loss_value
     calculate_metrics_of lr).

(** The row lines 224-229 build for batch [b]. *)
Abbreviation the_row := (fun (epoch iteration : Z) (b : batch) =>
  <["lr"%string := PyFloat lr]>
    (<["iteration"%string := PyInt iteration]>
       (<["epoch"%string := PyInt epoch]>
          (setdefault "loss" (PyFloat (loss_value b (network b)))
             (PyFloat <$> calculate_metrics_of b (network b)))))).

Abbreviation the_rows := (fun (training_dataset : list batch) (epoch : Z) =>
  map (fun '(iteration, b) => the_row epoch iteration b)
      (enumerate 1 training_dataset)).

Lemma fit_batches_log (cb : bool) (epoch : Z) (ds : list batch) :
  forall (k : Z) (tl : list (gmap string number)) (tr : list event),
  exists tr',
    for_acc (enumerate k ds) tl
      (fun train_log '(iteration, b) => the_fit_batch cb epoch iteration b train_log)
      tr
    = (inr (tl ++ map (fun '(iteration, b) => the_row epoch iteration b)
                      (enumerate k ds)), tr').
Proof.
  induction ds as [|b ds IH]; intros k tl tr.
  - exists tr. simpl. now rewrite app_nil_r.
  - cbn [enumerate for_acc map]. rewrite bind_run.
    assert (Hb : exists tr1,
               the_fit_batch cb epoch k b tl tr
               = (inr (tl ++ [the_row epoch k b]), tr1)).
    { unfold StandardClassifier.fit_batch, BaseTrainable.backward,
        StandardClassifier.forward, StandardClassifier.calculate_loss,
        StandardClassifier.calculate_metrics, calling, emit, modify, bind, ret.
      destruct cb; eexists; reflexivity. }
    destruct Hb as (tr1 & ->).
    destruct (IH (k + 1) (tl ++ [the_row epoch k b]) tr1) as (tr' & ->).
    exists tr'. now rewrite <- app_assoc.
Qed.

Lemma enumerate_length {A} (k : Z) (xs : list A) :
  length (enumerate k xs) = length xs.
Proof. revert k. induction xs as [|x xs IH]; intros k; simpl; auto. Qed.

Lemma flat_map_const_length {A B} (f : A -> list B) (n : nat) (l : list A) :
  (forall x, length (f x) = n) -> length (flat_map f l) = (length l * n)%nat.
Proof.
  intros Hf. induction l as [|x l IH]; [reflexivity|].
  cbn [flat_map length]. rewrite length_app, Hf, IH. lia.
Qed.

Lemma fit_epoch_log (ds : list batch) (vd : option (list batch)) (cb ecb : bool)
    (epoch : Z) (tl vl : list (gmap string number)) (tr : list event) :
  match the_fit_epoch ds vd cb ecb epoch (tl, vl) tr with
  | (inr (tl', vl'), _) =>
      tl' = tl ++ the_rows ds epoch /\
      (match vd with
       | None => vl' = vl
       | Some _ => exists row, vl' = vl ++ [row] /\
                               row !! "epoch"%string = Some (PyInt epoch)
       end)
  | (inl _, _) => vd <> None
  end.
Proof.
  unfold StandardClassifier.fit_epoch. rewrite bind_run. cbn [fst snd].
  destruct (fit_batches_log cb epoch ds 1 tl tr) as (tr1 & ->).
  destruct vd as [vd|]; [|cbn; auto].
  rewrite bind_run.
  destruct (StandardClassifier.evaluate batch output network_on_batch
              calculate_metrics_of vd tr1) as [[e|val_metrics] tr2];
    [discriminate|].
  unfold BaseTrainable.standard_logging, emit, modify, bind, ret.
  destruct ecb; cbn; (split; [reflexivity|]); eexists; (split; [reflexivity|]);
    apply lookup_insert_eq.
Qed.

Lemma fit_loop_log (ds : list batch) (vd : option (list batch)) (cb ecb : bool)
    (epochs : list Z) :
  forall (tl vl : list (gmap string number)) (tr : list event),
  match for_acc epochs (tl, vl)
          (fun logs epoch => the_fit_epoch ds vd cb ecb epoch logs) tr with
  | (inr (tl', vl'), _) =>
      tl' = tl ++ flat_map (the_rows ds) epochs /\
      (match vd with
       | None => vl' = vl
       | Some _ => exists rows, vl' = vl ++ rows /\
                     map (fun row => row !! "epoch"%string) rows
                     = map (fun epoch => Some (PyInt epoch)) epochs
       end)
  | (inl _, _) => vd <> None
  end.
Proof.
  induction epochs as [|epoch epochs IH]; intros tl vl tr.
  - cbn. rewrite app_nil_r. split; [reflexivity|].
    destruct vd; [exists []; now rewrite app_nil_r|reflexivity].
  - cbn [for_acc flat_map]. rewrite bind_run.
    pose proof (fit_epoch_log ds vd cb ecb epoch tl vl tr) as Hep.
    destruct (the_fit_epoch ds vd cb ecb epoch (tl, vl) tr)
      as [[e|[tl1 vl1]] tr1]; [exact Hep|].
    destruct Hep as [-> Hvl1].
    specialize (IH (tl ++ the_rows ds epoch) vl1 tr1).
    cbv beta in IH |- *.
    match goal with
    | |- context [for_acc ?xs ?acc ?body ?t] =>
        destruct (for_acc xs acc body t) as [[e|[tl' vl']] tr']; [exact IH|]
    end.
    destruct IH as [-> Hvl']. rewrite <- app_assoc. split; [reflexivity|].
    destruct vd as [vd|]; [|congruence].
    destruct Hvl1 as (row & -> & Hrow). destruct Hvl' as (rows & -> & Hrows).
    exists (row :: rows). rewrite <- app_assoc. split; [reflexivity|].
    cbn [map]. now rewrite Hrow, Hrows.
Qed.

(** X15: the logs [StandardClassifier.fit] returns.  Without a validation
    set it returns, with an empty validation log and a training log of one
    row per epoch and batch, in order: the metrics of the batch, to which
    [loss] is added unless a metric of that name is reported (the reported
    one is then kept), and in which [epoch], [iteration] (counted from 1
    within the epoch) and [lr] are set, replacing a metric of the same name.
    With a validation set, whenever [fit] returns, the training log is the
    same and the validation log has one row per epoch, each carrying its
    epoch. *)
Theorem fit_logs (training_dataset : list batch) (epochs : Z)
    (step_callback epoch_callback : bool) (tr : list event) :
  let row := fun (epoch iteration : Z) (b : batch) =>
    <["lr"%string := PyFloat lr]>
      (<["iteration"%string := PyInt iteration]>
         (<["epoch"%string := PyInt epoch]>
            (setdefault "loss" (PyFloat (loss_value b (network b)))
               (PyFloat <$> calculate_metrics_of b (network b))))) in
  let train_log :=
    flat_map (fun epoch => map (fun '(iteration, b) => row epoch iteration b)
                               (enumerate 1 training_dataset))
             (py_range 1 (epochs + 1)) in
  fst (the_fit training_dataset epochs None step_callback epoch_callback tr)
    = inr (train_log, []) /\
  (forall vd tl vl,
     fst (the_fit training_dataset epochs (Some vd) step_callback epoch_callback tr)
       = inr (tl, vl) ->
     tl = train_log /\
     map (fun r => r !! "epoch"%string) vl
       = map (fun epoch => Some (PyInt epoch)) (py_range 1 (epochs + 1))) /\
  length train_log = (Z.to_nat epochs * length training_dataset)%nat /\
  (forall epoch iteration b,
     row epoch iteration b !! "loss"%string
       = Some (PyFloat
                 (default (loss_value b (network b))
                    (calculate_metrics_of b (network b) !! "loss"%string))) /\
     row epoch iteration b !! "epoch"%string = Some (PyInt epoch) /\
     row epoch iteration b !! "iteration"%string = Some (PyInt iteration) /\
     row epoch iteration b !! "lr"%string = Some (PyFloat lr)).
Proof.
  intros row train_log. split; [|split; [|split]].
  - pose proof (fit_loop_log training_dataset None step_callback epoch_callback
                  (py_range 1 (epochs + 1)) [] [] tr) as H.
    unfold StandardClassifier.fit.
    destruct (for_acc _ _ _ tr) as [[e|[tl vl]] tr']; [congruence|].
    destruct H as [-> ->]. reflexivity.
  - intros vd tl vl Hrun.
    pose proof (fit_loop_log training_dataset (Some vd) step_callback
                  epoch_callback (py_range 1 (epochs + 1)) [] [] tr) as H.
    unfold StandardClassifier.fit in Hrun.
    destruct (for_acc _ _ _ tr) as [[e|[tl' vl']] tr']; [discriminate|].
    cbn in Hrun. injection Hrun as -> ->.
    destruct H as [-> (rows & -> & Hrows)]. split; [reflexivity|exact Hrows].
  - subst train_log.
    rewrite (flat_map_const_length _ (length training_dataset))
      by (intros epoch; now rewrite length_map, enumerate_length).
    rewrite py_range_length. f_equal. lia.
  - intros epoch iteration b. subst row. cbv beta.
    split; [|split; [|split]].
    + rewrite !lookup_insert_ne by discriminate. unfold setdefault.
      rewrite lookup_fmap.
      destruct (calculate_metrics_of b (network b) !! "loss"%string) as [v|] eqn:Hv;
        simpl.
      * now rewrite lookup_fmap, Hv.
      * now rewrite lookup_insert_eq.
    + rewrite !lookup_insert_ne by discriminate. apply lookup_insert_eq.
    + rewrite lookup_insert_ne by discriminate. apply lookup_insert_eq.
    + apply lookup_insert_eq.
Qed.

End LogsMore.
